(** * Watermark: the table-watermark result model of databuilder

    A shallow embedding of [databuilder/models/watermark.py] and the
    properties of its construction, its identity keys and its four
    generator-backed "create next" accessors.

    Python [str] values are modelled as [string].  The only character the
    model inspects is ['='], an ASCII character, so reading a [string] as the
    UTF-8 encoding of the Python text changes no position-independent
    statement made below. *)

From Stdlib Require Import ZArith Lia Ascii String.
From stdpp Require Import base option list strings gmap.

Local Open Scope string_scope.
Local Open Scope Z_scope.

(** ** Python string primitives used by the constructor *)

Module PyStr.

(** [sub in s]: [sub] occurs in [s] at some position. *)
Fixpoint contains (sub s : string) : bool :=
  if String.prefix sub s then true
  else match s with
       | EmptyString => false
       | String _ s' => contains sub s'
       end.

(** [s.find(sub)] scanning from offset [i]: the lowest position at which
    [sub] occurs, [-1] when there is none. *)
Fixpoint find_from (sub s : string) (i : Z) : Z :=
  if String.prefix sub s then i
  else match s with
       | EmptyString => -1
       | String _ s' => find_from sub s' (i + 1)
       end.

Definition find (sub s : string) : Z := find_from sub s 0.

(** A slice bound as Python normalises it: a negative bound counts from
    the end, and the result is clamped to [0 .. len]. *)
Definition slice_bound (len i : Z) : Z :=
  if i <? 0 then Z.max 0 (len + i) else Z.min i len.

Definition len (s : string) : Z := Z.of_nat (String.length s).

(** [s[:stop]] *)
Definition slice_to (s : string) (stop : Z) : string :=
  String.substring 0 (Z.to_nat (slice_bound (len s) stop)) s.

(** [s[start:]] *)
Definition slice_from (s : string) (start : Z) : string :=
  let b := Z.to_nat (slice_bound (len s) start) in
  String.substring b (String.length s - b) s.

(** [fmt.format] with keyword arguments [kwargs], for the fragment of the
    format language that [KEY_FORMAT] uses: literal text and [{name}]
    replacement fields.
    [field] is [Some acc] while the scanner is inside a replacement field
    whose name read so far is [acc].  [None] stands for the exceptions of
    Python: [ValueError] for an unbalanced brace, [KeyError] for a name
    that is not among the keyword arguments.  The substituted values are
    not scanned again. *)
Fixpoint format_scan (fmt : string) (field : option string)
         (kwargs : list (string * string)) : option string :=
  match fmt with
  | EmptyString =>
      match field with
      | None => Some EmptyString
      | Some _ => None
      end
  | String c rest =>
      match field with
      | None =>
          if Ascii.eqb c "{" then format_scan rest (Some EmptyString) kwargs
          else if Ascii.eqb c "}" then None
          else option_map (String c) (format_scan rest None kwargs)
      | Some name =>
          if Ascii.eqb c "}" then
            match List.find (fun kv => String.eqb (fst kv) name) kwargs with
            | Some kv => option_map (String.append (snd kv))
                                    (format_scan rest None kwargs)
            | None => None
            end
          else format_scan rest (Some (name +:+ String c EmptyString)) kwargs
      end
  end.

Definition format (fmt : string) (kwargs : list (string * string)) : option string :=
  format_scan fmt None kwargs.

End PyStr.

(** ** Construction *)

(** [raise Exception(msg)] *)
Inductive exception : Type :=
| Exception (msg : string).

(** The state of a generator whose body is [for part in self.parts: yield ...]:
    not yet entered, suspended at the [yield] with the list iterator at
    position [pos] of the list [seq] it was created on, or finished. *)
Inductive for_gen : Type :=
| ForCreated
| ForSuspended (seq : list (string * string)) (pos : nat)
| ForClosed.

(** The state of a generator whose body is a single [yield]. *)
Inductive once_gen : Type :=
| OnceCreated
| OnceSuspended
| OnceClosed.

Record Watermark : Type := mkWatermark {
  create_time : string;
  database : string;
  schema : string;
  table : string;
  parts : list (string * string);
  part_type : string;
  cluster : string;
  _node_iter : for_gen;
  _relation_iter : once_gen;
  _record_iter : for_gen;
  _atlas_entity_iterator : for_gen
}.

Definition default_part_type : string := "high_watermark".
Definition default_cluster : string := "gold".

(** [Watermark.__init__].  The result is the raised exception or the
    constructed instance; the generators are created, none is entered. *)
Definition Watermark_init (create_time database schema table_name part_name
                           part_type cluster : string) : exception + Watermark :=
  if negb (PyStr.contains "=" part_name) then
    inl (Exception "Only partition table has high watermark")
  else
    let idx := PyStr.find "=" part_name in
    let name := PyStr.slice_to part_name idx in
    let value := PyStr.slice_from part_name (idx + 1) in
    inr {| create_time := create_time;
           database := database;
           schema := schema;
           table := table_name;
           parts := [(name, value)];
           part_type := part_type;
           cluster := cluster;
           _node_iter := ForCreated;
           _relation_iter := OnceCreated;
           _record_iter := ForCreated;
           _atlas_entity_iterator := ForCreated |}.

(** ** The emitted items *)

(** [GraphNode(key, label, attributes)] *)
Module GraphNode.
Record t : Type := mk {
  key : string;
  label : string;
  attributes : gmap string string
}.
End GraphNode.

(** [GraphRelationship(start_key, start_label, end_key, end_label, type,
    reverse_type, attributes)] *)
Module GraphRelationship.
Record t : Type := mk {
  start_key : string;
  start_label : string;
  end_key : string;
  end_label : string;
  type : string;
  reverse_type : string;
  attributes : gmap string string
}.
End GraphRelationship.

(** [RDSTableWatermark(rk, partition_key, partition_value, create_time,
    table_rk)], the row of the relational store. *)
Module RDSTableWatermark.
Record t : Type := mk {
  rk : string;
  partition_key : string;
  partition_value : string;
  create_time : string;
  table_rk : string
}.
End RDSTableWatermark.

(** [AtlasEntity(typeName, operation, attributes, relationships)].  The two
    encoded fields have the types the serializer helpers below return. *)
Module AtlasEntity.
Record t : Type := mk {
  typeName : string;
  operation : string;
  attributes : gmap string string;
  relationships : list (string * string * string)
}.
End AtlasEntity.

(** Modelled from the spec: the class [AtlasRelationship] is declared in
    [databuilder/models/atlas_relationship.py], which is not among the
    sources; the watermark model never builds one, so its fields are kept as
    an uninterpreted map. *)
Module AtlasRelationship.
Record t : Type := mk {
  fields : gmap string string
}.
End AtlasRelationship.

(** ** Constants and helpers of the catalog serializer *)

(** Modelled from the spec: [AtlasCommonParams.qualified_name] is declared
    in [amundsen_common.utils.atlas]; the spec names the attribute
    [qualifiedName]. *)
Module AtlasCommonParams.
Definition qualified_name : string := "qualifiedName".
End AtlasCommonParams.

(** Modelled from the spec: the type names [AtlasTableTypes.table] and
    [AtlasTableTypes.watermark] are declared in [amundsen_common.utils.atlas];
    the spec calls them the type "table" and the type "watermark".  No
    statement below depends on the two literals. *)
Module AtlasTableTypes.
Definition table : string := "table".
Definition watermark : string := "watermark".
End AtlasTableTypes.

(** Modelled from the spec: [AtlasSerializedEntityOperation.CREATE] is
    declared in [databuilder/utils/atlas.py]; the spec writes the operation
    as CREATE. *)
Module AtlasSerializedEntityOperation.
Definition CREATE : string := "CREATE".
End AtlasSerializedEntityOperation.

(** Modelled from the spec: [get_entity_attrs] of
    [databuilder/serializers/atlas_serializer.py] turns an ordered list of
    (fieldName, value) pairs into the attribute map: the pairs are stored
    left to right, a later pair replacing an earlier one of the same name. *)
Definition get_entity_attrs (mapping : list (string * string)) : gmap string string :=
  foldl (fun attrs kv => <[kv.1 := kv.2]> attrs) ∅ mapping.

(** Modelled from the spec: [add_entity_relationship] of
    [databuilder/serializers/atlas_serializer.py] appends to the list it is
    given the triple (relationshipField, targetTypeName,
    targetQualifiedName); the call mutates the list, so the model returns
    the list after the call. *)
Definition add_entity_relationship (relationship_list : list (string * string * string))
           (field type_name qualified_name : string) : list (string * string * string) :=
  relationship_list ++ [(field, type_name, qualified_name)].

(** Modelled from the spec: [get_entity_relationships] of
    [databuilder/serializers/atlas_serializer.py] turns the list of triples
    into the structured list of the catalog; the model keeps the triples,
    in order. *)
Definition get_entity_relationships (relationship_list : list (string * string * string))
  : list (string * string * string) :=
  relationship_list.

(** ** Identity keys *)

Definition LABEL : string := "Watermark".
Definition KEY_FORMAT : string :=
  "{database}://{cluster}.{schema}" +:+ "/{table}/{part_type}/".
Definition WATERMARK_TABLE_RELATION_TYPE : string := "BELONG_TO_TABLE".
Definition TABLE_WATERMARK_RELATION_TYPE : string := "WATERMARK".

(** [Watermark.get_watermark_model_key].  The [None] branch stands for an
    exception of [str.format]; [KEY_FORMAT_format] below shows that
    formatting [KEY_FORMAT] with these five keyword arguments never takes
    it. *)
Definition get_watermark_model_key (self : Watermark) : string :=
  match PyStr.format KEY_FORMAT [("database", database self);
                                 ("cluster", cluster self);
                                 ("schema", schema self);
                                 ("table", table self);
                                 ("part_type", part_type self)] with
  | Some s => s
  | None => EmptyString
  end.

(** [Watermark.get_metadata_model_key] *)
Definition get_metadata_model_key (self : Watermark) : string :=
  database self +:+ "://" +:+ cluster self +:+ "." +:+ schema self +:+ "/" +:+ table self.

(** ** Generators *)

(** The outcome of [next(gen)]: a yielded item or the [StopIteration]
    exception. *)
Inductive next_result (A : Type) : Type :=
| Yield (a : A)
| StopIteration.
Arguments Yield {A} a.
Arguments StopIteration {A}.

(** One turn of the [for] loop: ask the list iterator for the element at
    [pos]; run the body up to its [yield] when there is one, fall off the
    end of the generator otherwise. *)
Definition for_gen_loop {A : Type} (body : string * string -> A)
           (seq : list (string * string)) (pos : nat) : next_result A * for_gen :=
  match seq !! pos with
  | Some part => (Yield (body part), ForSuspended seq (S pos))
  | None => (StopIteration, ForClosed)
  end.

(** [next] on a generator [for part in self_parts: yield body(part)].  The
    first [next] evaluates [self.parts] and starts the loop at position 0; a
    finished generator raises [StopIteration] again. *)
Definition for_gen_next {A : Type} (body : string * string -> A)
           (self_parts : list (string * string)) (g : for_gen) : next_result A * for_gen :=
  match g with
  | ForCreated => for_gen_loop body self_parts 0
  | ForSuspended seq pos => for_gen_loop body seq pos
  | ForClosed => (StopIteration, ForClosed)
  end.

(** [next] on a generator whose body builds one item and yields it. *)
Definition once_gen_next {A : Type} (item : A) (g : once_gen) : next_result A * once_gen :=
  match g with
  | OnceCreated => (Yield item, OnceSuspended)
  | OnceSuspended => (StopIteration, OnceClosed)
  | OnceClosed => (StopIteration, OnceClosed)
  end.

(** ** The instance as state *)

(** A method of the instance: it reads [self], may advance one of its
    generators, and returns a value. *)
Definition M (A : Type) : Type := Watermark -> A * Watermark.

Definition ret {A : Type} (a : A) : M A := fun self => (a, self).

Definition bind {A B : Type} (m : M A) (k : A -> M B) : M B :=
  fun self => let '(a, self') := m self in k a self'.

Notation "'do' x <- m 'in' k" := (bind m (fun x => k))
  (at level 10, x name, m at level 100, k at level 200).

Definition set_node_iter (g : for_gen) (self : Watermark) : Watermark :=
  {| create_time := create_time self; database := database self;
     schema := schema self; table := table self; parts := parts self;
     part_type := part_type self; cluster := cluster self;
     _node_iter := g;
     _relation_iter := _relation_iter self;
     _record_iter := _record_iter self;
     _atlas_entity_iterator := _atlas_entity_iterator self |}.

Definition set_relation_iter (g : once_gen) (self : Watermark) : Watermark :=
  {| create_time := create_time self; database := database self;
     schema := schema self; table := table self; parts := parts self;
     part_type := part_type self; cluster := cluster self;
     _node_iter := _node_iter self;
     _relation_iter := g;
     _record_iter := _record_iter self;
     _atlas_entity_iterator := _atlas_entity_iterator self |}.

Definition set_record_iter (g : for_gen) (self : Watermark) : Watermark :=
  {| create_time := create_time self; database := database self;
     schema := schema self; table := table self; parts := parts self;
     part_type := part_type self; cluster := cluster self;
     _node_iter := _node_iter self;
     _relation_iter := _relation_iter self;
     _record_iter := g;
     _atlas_entity_iterator := _atlas_entity_iterator self |}.

Definition set_atlas_entity_iterator (g : for_gen) (self : Watermark) : Watermark :=
  {| create_time := create_time self; database := database self;
     schema := schema self; table := table self; parts := parts self;
     part_type := part_type self; cluster := cluster self;
     _node_iter := _node_iter self;
     _relation_iter := _relation_iter self;
     _record_iter := _record_iter self;
     _atlas_entity_iterator := g |}.

(** [try: return next(gen) except StopIteration: return None] *)
Definition or_none {A : Type} (r : next_result A) : option A :=
  match r with
  | Yield a => Some a
  | StopIteration => None
  end.

(** ** The producers *)

(** The loop body of [Watermark._create_node_iterator]. *)
Definition _create_node_iterator (self : Watermark) (part : string * string) : GraphNode.t :=
  {| GraphNode.key := get_watermark_model_key self;
     GraphNode.label := LABEL;
     GraphNode.attributes :=
       <["create_time" := create_time self]>
         (<["partition_value" := part.2]>
            (<["partition_key" := part.1]> ∅)) |}.

(** The item of [Watermark._create_relation_iterator]. *)
Definition _create_relation_iterator (self : Watermark) : GraphRelationship.t :=
  {| GraphRelationship.start_key := get_watermark_model_key self;
     GraphRelationship.start_label := LABEL;
     GraphRelationship.end_key := get_metadata_model_key self;
     GraphRelationship.end_label := "Table";
     GraphRelationship.type := WATERMARK_TABLE_RELATION_TYPE;
     GraphRelationship.reverse_type := TABLE_WATERMARK_RELATION_TYPE;
     GraphRelationship.attributes := ∅ |}.

(** The loop body of [Watermark._create_next_record]. *)
Definition _create_next_record (self : Watermark) (part : string * string) : RDSTableWatermark.t :=
  {| RDSTableWatermark.rk := get_watermark_model_key self;
     RDSTableWatermark.partition_key := part.1;
     RDSTableWatermark.partition_value := part.2;
     RDSTableWatermark.create_time := create_time self;
     RDSTableWatermark.table_rk := get_metadata_model_key self |}.

(** [Watermark._create_atlas_partition_entity] *)
Definition _create_atlas_partition_entity (self : Watermark) (spec : string * string)
  : AtlasEntity.t :=
  let attrs_mapping := [(AtlasCommonParams.qualified_name, get_watermark_model_key self);
                        ("name", spec.2);
                        ("displayName", spec.2);
                        ("key", spec.1);
                        ("create_time", create_time self)] in
  let entity_attrs := get_entity_attrs attrs_mapping in
  let relationship_list := [] in
  let relationship_list :=
    add_entity_relationship relationship_list "table" AtlasTableTypes.table
                            (get_metadata_model_key self) in
  {| AtlasEntity.typeName := AtlasTableTypes.watermark;
     AtlasEntity.operation := AtlasSerializedEntityOperation.CREATE;
     AtlasEntity.attributes := entity_attrs;
     AtlasEntity.relationships := get_entity_relationships relationship_list |}.

(** [next(self._node_iter)] and its three siblings: the generator runs on
    the instance as it is at the time of the pull, and its new state is
    stored back. *)
Definition next_node_iter : M (next_result GraphNode.t) := fun self =>
  let '(r, g) := for_gen_next (_create_node_iterator self) (parts self) (_node_iter self) in
  (r, set_node_iter g self).

Definition next_relation_iter : M (next_result GraphRelationship.t) := fun self =>
  let '(r, g) := once_gen_next (_create_relation_iterator self) (_relation_iter self) in
  (r, set_relation_iter g self).

Definition next_record_iter : M (next_result RDSTableWatermark.t) := fun self =>
  let '(r, g) := for_gen_next (_create_next_record self) (parts self) (_record_iter self) in
  (r, set_record_iter g self).

Definition next_atlas_entity_iterator : M (next_result AtlasEntity.t) := fun self =>
  let '(r, g) := for_gen_next (_create_atlas_partition_entity self) (parts self)
                              (_atlas_entity_iterator self) in
  (r, set_atlas_entity_iterator g self).

(** [Watermark.create_next_node] *)
Definition create_next_node : M (option GraphNode.t) :=
  do r <- next_node_iter in ret (or_none r).

(** [Watermark.create_next_relation] *)
Definition create_next_relation : M (option GraphRelationship.t) :=
  do r <- next_relation_iter in ret (or_none r).

(** [Watermark.create_next_record] *)
Definition create_next_record : M (option RDSTableWatermark.t) :=
  do r <- next_record_iter in ret (or_none r).

(** [Watermark.create_next_atlas_entity] *)
Definition create_next_atlas_entity : M (option AtlasEntity.t) :=
  do r <- next_atlas_entity_iterator in ret (or_none r).

(** [Watermark.create_next_atlas_relation]: the body is [pass]. *)
Definition create_next_atlas_relation : M (option AtlasRelationship.t) :=
  ret None.

(** ** Callers *)

(** The five "create next" accessors by name, and what one of them hands
    to its caller. *)
Inductive producer : Type :=
| NodeProducer
| RelationProducer
| RecordProducer
| AtlasEntityProducer
| AtlasRelationProducer.

Inductive item : Type :=
| NodeItem (n : GraphNode.t)
| RelationItem (r : GraphRelationship.t)
| RecordItem (r : RDSTableWatermark.t)
| AtlasEntityItem (e : AtlasEntity.t)
| AtlasRelationItem (r : AtlasRelationship.t).

(** One call of the accessor [p]. *)
Definition pull (p : producer) : M (option item) :=
  match p with
  | NodeProducer => do r <- create_next_node in ret (NodeItem <$> r)
  | RelationProducer => do r <- create_next_relation in ret (RelationItem <$> r)
  | RecordProducer => do r <- create_next_record in ret (RecordItem <$> r)
  | AtlasEntityProducer => do r <- create_next_atlas_entity in ret (AtlasEntityItem <$> r)
  | AtlasRelationProducer => do r <- create_next_atlas_relation in ret (AtlasRelationItem <$> r)
  end.

(** A caller that calls the accessors in the order [ps], whatever they
    return; the result lists what each call returned. *)
Fixpoint pulls (ps : list producer) : M (list (option item)) :=
  match ps with
  | [] => ret []
  | p :: ps' => do r <- pull p in do rs <- pulls ps' in ret (r :: rs)
  end.

(** A caller that calls one accessor until it returns [None], at most
    [fuel] times, and collects the items. *)
Fixpoint drain {A : Type} (next : M (option A)) (fuel : nat) : M (list A) :=
  match fuel with
  | O => ret []
  | S fuel' =>
      do r <- next in
      match r with
      | Some a => do rest <- drain next fuel' in ret (a :: rest)
      | None => ret []
      end
  end.

(** The five identifying fields and the content of an instance are those of
    another one: pulling changes nothing else than generator states. *)
Definition same_fields (w1 w2 : Watermark) : Prop :=
  create_time w1 = create_time w2 /\ database w1 = database w2 /\
  schema w1 = schema w2 /\ table w1 = table w2 /\ parts w1 = parts w2 /\
  part_type w1 = part_type w2 /\ cluster w1 = cluster w2.

(** Every generator of the instance is created and none is entered. *)
Definition fresh (w : Watermark) : Prop :=
  _node_iter w = ForCreated /\ _relation_iter w = OnceCreated /\
  _record_iter w = ForCreated /\ _atlas_entity_iterator w = ForCreated.

(** The generator behind the accessor [p] is finished.  The accessor of
    catalog relationships has no generator: its body is [pass]. *)
Definition exhausted (p : producer) (w : Watermark) : Prop :=
  match p with
  | NodeProducer => _node_iter w = ForClosed
  | RelationProducer => _relation_iter w = OnceClosed
  | RecordProducer => _record_iter w = ForClosed
  | AtlasEntityProducer => _atlas_entity_iterator w = ForClosed
  | AtlasRelationProducer => True
  end.

(** The common shape of the three accessors that sit on a [for] generator,
    over the field [get]/[set] that holds the generator and the loop body
    [body]. *)
Definition for_accessor {A : Type} (get : Watermark -> for_gen)
           (set : for_gen -> Watermark -> Watermark)
           (body : Watermark -> string * string -> A) : M (option A) :=
  fun self =>
    let '(r, g) := for_gen_next (body self) (parts self) (get self) in
    (or_none r, set g self).

(** The partition pair [(k, v)] as the first graph node, tabular record and
    catalog entity of [w] carry it. *)
Definition emitted_pair (w : Watermark) (k v : string) : Prop :=
  exists n r e,
    (create_next_node w).1 = Some n /\
    GraphNode.attributes n !! "partition_key" = Some k /\
    GraphNode.attributes n !! "partition_value" = Some v /\
    (create_next_record w).1 = Some r /\
    RDSTableWatermark.partition_key r = k /\
    RDSTableWatermark.partition_value r = v /\
    (create_next_atlas_entity w).1 = Some e /\
    AtlasEntity.attributes e !! "key" = Some k /\
    AtlasEntity.attributes e !! "name" = Some v /\
    AtlasEntity.attributes e !! "displayName" = Some v.

(** The identities an emitted item carries are the watermark key [wk] and
    the table key [tk]. *)
Definition carries_keys (wk tk : string) (it : item) : Prop :=
  match it with
  | NodeItem n => GraphNode.key n = wk
  | RelationItem r =>
      GraphRelationship.start_key r = wk /\ GraphRelationship.end_key r = tk
  | RecordItem r =>
      RDSTableWatermark.rk r = wk /\ RDSTableWatermark.table_rk r = tk
  | AtlasEntityItem e =>
      AtlasEntity.attributes e !! "qualifiedName" = Some wk /\
      AtlasEntity.relationships e = [("table", AtlasTableTypes.table, tk)]
  | AtlasRelationItem _ => True
  end.

#[global] Instance producer_eq_dec : EqDecision producer.
Proof. solve_decision. Defined.

(** What the calls of the accessor [p] returned, among the calls [ps] whose
    results are [rs]. *)
Fixpoint results_of (p : producer) (ps : list producer) (rs : list (option item))
  : list (option item) :=
  match ps, rs with
  | q :: ps', r :: rs' =>
      if decide (q = p) then r :: results_of p ps' rs' else results_of p ps' rs'
  | _, _ => []
  end.

(** The items a [for] generator in state [g] has not yielded yet. *)
Definition for_pending {A : Type} (body : string * string -> A)
           (self_parts : list (string * string)) (g : for_gen) : list A :=
  match g with
  | ForCreated => body <$> self_parts
  | ForSuspended seq pos => body <$> drop pos seq
  | ForClosed => []
  end.

(** The items a single-[yield] generator in state [g] has not yielded yet. *)
Definition once_pending {A : Type} (it : A) (g : once_gen) : list A :=
  match g with
  | OnceCreated => [it]
  | OnceSuspended => []
  | OnceClosed => []
  end.

(** The items the accessor [p] has not returned yet, in the state [w]. *)
Definition pending (p : producer) (w : Watermark) : list item :=
  match p with
  | NodeProducer =>
      NodeItem <$> for_pending (_create_node_iterator w) (parts w) (_node_iter w)
  | RelationProducer =>
      RelationItem <$> once_pending (_create_relation_iterator w) (_relation_iter w)
  | RecordProducer =>
      RecordItem <$> for_pending (_create_next_record w) (parts w) (_record_iter w)
  | AtlasEntityProducer =>
      AtlasEntityItem <$> for_pending (_create_atlas_partition_entity w) (parts w)
                                      (_atlas_entity_iterator w)
  | AtlasRelationProducer => []
  end.

(** * Properties *)

(** ** Strings *)

Section string_facts.

Implicit Types (s k v : string) (c : ascii).

Lemma prefix_eq_sign c s :
  String.prefix "=" (String c s) = true <-> c = "="%char.
Proof.
  cbn [String.prefix]. destruct (ascii_dec "=" c) as [E|Hne].
  - split; [now intros _ | intros _; now destruct s].
  - split; [discriminate | intros ->; contradiction].
Qed.

Lemma contains_eq_sign_In s :
  PyStr.contains "=" s = true <-> In "="%char (list_ascii_of_string s).
Proof.
  induction s as [|c s IH].
  - simpl. split; [discriminate | tauto].
  - cbn [PyStr.contains list_ascii_of_string In].
    destruct (String.prefix "=" (String c s)) eqn:Hp.
    + apply prefix_eq_sign in Hp. subst c. tauto.
    + rewrite IH. split; [tauto | intros [->|H]; [|exact H]].
      assert (String.prefix "=" (String "=" s) = true) as E
          by (now apply prefix_eq_sign).
      congruence.
Qed.

Lemma append_nil_l s : EmptyString +:+ s = s.
Proof. reflexivity. Qed.

Lemma append_cons c s1 s2 : String c s1 +:+ s2 = String c (s1 +:+ s2).
Proof. reflexivity. Qed.

Lemma length_append s1 s2 :
  String.length (s1 +:+ s2) = (String.length s1 + String.length s2)%nat.
Proof. induction s1 as [|c s1 IH]; simpl; [reflexivity | now rewrite IH]. Qed.

Lemma substring_whole s : String.substring 0 (String.length s) s = s.
Proof. induction s as [|c s IH]; simpl; [reflexivity | now rewrite IH]. Qed.

Lemma substring_head k s :
  String.substring 0 (String.length k) (k +:+ s) = k.
Proof.
  induction k as [|c k IH]; simpl.
  - now destruct s.
  - now rewrite IH.
Qed.

Lemma find_from_cons sub c s i :
  PyStr.find_from sub (String c s) i =
  if String.prefix sub (String c s) then i else PyStr.find_from sub s (i + 1).
Proof. reflexivity. Qed.

(** [find] on a text whose first ['='] follows the prefix [k]. *)
Lemma find_from_split k v i :
  ~ In "="%char (list_ascii_of_string k) ->
  PyStr.find_from "=" (k +:+ "=" +:+ v) i = i + PyStr.len k.
Proof.
  revert i. induction k as [|c k IH]; intros i Hk.
  - change ("" +:+ "=" +:+ v) with (String "=" v).
    rewrite find_from_cons.
    replace (String.prefix "=" (String "=" v)) with true
      by (symmetry; now apply prefix_eq_sign).
    unfold PyStr.len. simpl String.length. lia.
  - change (String c k +:+ "=" +:+ v) with (String c (k +:+ "=" +:+ v)).
    rewrite find_from_cons.
    destruct (String.prefix "=" (String c (k +:+ "=" +:+ v))) eqn:Hp.
    + apply prefix_eq_sign in Hp. subst c. exfalso. apply Hk. now left.
    + rewrite IH by (intros H; apply Hk; now right).
      unfold PyStr.len. simpl String.length. lia.
Qed.

(** A text with an ['='] splits at its first one. *)
Lemma split_first_eq_sign s :
  In "="%char (list_ascii_of_string s) ->
  exists k v, s = k +:+ "=" +:+ v /\ ~ In "="%char (list_ascii_of_string k).
Proof.
  induction s as [|c s IH]; cbn [list_ascii_of_string In]; [tauto|].
  intros H. destruct (ascii_dec c "=") as [->|Hne].
  - exists EmptyString, s. split; [reflexivity | cbn; tauto].
  - destruct H as [H|H]; [congruence|].
    destruct (IH H) as (k & v & -> & Hk).
    exists (String c k), v. split; [reflexivity|].
    cbn [list_ascii_of_string In]. intros [E|E]; [congruence | now apply Hk].
Qed.

Lemma substring_after k c s m :
  String.substring (S (String.length k)) m (k +:+ String c s) = String.substring 0 m s.
Proof. induction k as [|c' k IH]; [reflexivity | exact IH]. Qed.

(** The two slices of the constructor on such a text. *)
Lemma slices_split k v :
  PyStr.slice_to (k +:+ "=" +:+ v) (PyStr.len k) = k /\
  PyStr.slice_from (k +:+ "=" +:+ v) (PyStr.len k + 1) = v.
Proof.
  unfold PyStr.slice_to, PyStr.slice_from, PyStr.slice_bound, PyStr.len.
  assert (String.length (k +:+ "=" +:+ v)
          = (String.length k + S (String.length v))%nat) as Hl
      by (rewrite length_append; reflexivity).
  rewrite Hl. split.
  - destruct (Z.ltb_spec (Z.of_nat (String.length k)) 0) as [?|_]; [lia|].
    rewrite Z.min_l by lia. rewrite Nat2Z.id. apply substring_head.
  - destruct (Z.ltb_spec (Z.of_nat (String.length k) + 1) 0) as [?|_]; [lia|].
    rewrite Z.min_l by lia.
    replace (Z.to_nat (Z.of_nat (String.length k) + 1)) with (S (String.length k)) by lia.
    replace (String.length k + S (String.length v) - S (String.length k))%nat
      with (String.length v) by lia.
    change (k +:+ "=" +:+ v) with (k +:+ String "=" v).
    rewrite substring_after. apply substring_whole.
Qed.

End string_facts.

(** ** Construction *)

Lemma contains_eq_sign_false s :
  PyStr.contains "=" s = false <-> ~ In "="%char (list_ascii_of_string s).
Proof.
  rewrite <- contains_eq_sign_In. destruct (PyStr.contains "=" s); split; congruence.
Qed.

(** The constructor on a text that splits at its first ['=']. *)
Lemma Watermark_init_split ct db sc tb k v pt cl :
  ~ In "="%char (list_ascii_of_string k) ->
  Watermark_init ct db sc tb (k +:+ "=" +:+ v) pt cl =
  inr (mkWatermark ct db sc tb [(k, v)] pt cl ForCreated OnceCreated ForCreated ForCreated).
Proof.
  intros Hk. unfold Watermark_init.
  assert (PyStr.contains "=" (k +:+ "=" +:+ v) = true) as ->.
  { apply contains_eq_sign_In.
    clear Hk. induction k as [|c k IH]; [now left | now right]. }
  cbn [negb]. unfold PyStr.find. rewrite find_from_split by exact Hk.
  rewrite Z.add_0_l.
  destruct (slices_split k v) as [-> ->]. reflexivity.
Qed.

(** What the constructor returns, by cases on the presence of ['=']. *)
Lemma Watermark_init_cases ct db sc tb pn pt cl :
  (~ In "="%char (list_ascii_of_string pn) /\
   Watermark_init ct db sc tb pn pt cl =
   inl (Exception "Only partition table has high watermark"))
  \/
  (exists k v,
      pn = k +:+ "=" +:+ v /\ ~ In "="%char (list_ascii_of_string k) /\
      Watermark_init ct db sc tb pn pt cl =
      inr (mkWatermark ct db sc tb [(k, v)] pt cl
                       ForCreated OnceCreated ForCreated ForCreated)).
Proof.
  destruct (PyStr.contains "=" pn) eqn:Hc.
  - right. apply contains_eq_sign_In in Hc.
    destruct (split_first_eq_sign pn Hc) as (k & v & -> & Hk).
    exists k, v. split; [reflexivity|]. split; [exact Hk|].
    now apply Watermark_init_split.
  - left. split; [now apply contains_eq_sign_false|].
    unfold Watermark_init. now rewrite Hc.
Qed.

(** A constructed instance carries the arguments of the constructor, one
    pair, and four created generators. *)
Lemma Watermark_init_inr ct db sc tb pn pt cl w :
  Watermark_init ct db sc tb pn pt cl = inr w ->
  exists k v,
    pn = k +:+ "=" +:+ v /\ ~ In "="%char (list_ascii_of_string k) /\
    w = mkWatermark ct db sc tb [(k, v)] pt cl ForCreated OnceCreated ForCreated ForCreated.
Proof.
  intros H. destruct (Watermark_init_cases ct db sc tb pn pt cl)
    as [[_ E]|(k & v & Hpn & Hk & E)]; rewrite E in H; [discriminate|].
  exists k, v. repeat split; [exact Hpn | exact Hk | congruence].
Qed.

Lemma Watermark_init_fresh ct db sc tb pn pt cl w :
  Watermark_init ct db sc tb pn pt cl = inr w -> fresh w.
Proof.
  intros H. destruct (Watermark_init_inr _ _ _ _ _ _ _ _ H) as (k & v & _ & _ & ->).
  repeat split.
Qed.

(** The split at the first ['='] is the only one whose left part has no
    ['=']. *)
Lemma split_first_eq_sign_unique k1 v1 k2 v2 :
  ~ In "="%char (list_ascii_of_string k1) ->
  ~ In "="%char (list_ascii_of_string k2) ->
  k1 +:+ "=" +:+ v1 = k2 +:+ "=" +:+ v2 ->
  k1 = k2 /\ v1 = v2.
Proof.
  revert k2. induction k1 as [|c1 k1 IH]; intros [|c2 k2] H1 H2 E;
    cbn [list_ascii_of_string In] in *; rewrite ?append_nil_l, ?append_cons in E.
  - injection E as E. now subst.
  - injection E as Ec E. subst c2. tauto.
  - injection E as Ec E. subst c1. tauto.
  - injection E as Ec E. subst c2.
    destruct (IH k2) as [-> ->]; [tauto | tauto | exact E | split; reflexivity].
Qed.

(** C1: when [part_name] contains an ['='], construction succeeds and
    [parts] holds the one pair (text before the first ['='], text after the
    first ['=']), whatever further ['='] the text after it contains. *)
Theorem Watermark_init_parts_split_at_first ct db sc tb pn pt cl :
  In "="%char (list_ascii_of_string pn) ->
  exists w k v,
    Watermark_init ct db sc tb pn pt cl = inr w /\
    parts w = [(k, v)] /\
    pn = k +:+ "=" +:+ v /\
    ~ In "="%char (list_ascii_of_string k).
Proof.
  intros Hin. destruct (split_first_eq_sign pn Hin) as (k & v & -> & Hk).
  eexists _, k, v. split; [now apply Watermark_init_split|].
  repeat split. exact Hk.
Qed.

Lemma Watermark_init_parts_split_at_first_witness :
  exists w k v,
    Watermark_init "2024-01-02" "hive" "sales" "orders" "a=b=c"
                   default_part_type default_cluster = inr w /\
    parts w = [(k, v)] /\
    "a=b=c" = k +:+ "=" +:+ v /\
    ~ In "="%char (list_ascii_of_string k).
Proof.
  apply (Watermark_init_parts_split_at_first
           "2024-01-02" "hive" "sales" "orders" "a=b=c" default_part_type default_cluster).
  cbn. tauto.
Defined.

(** The example of the specification: "a=b=c" gives ("a", "b=c"). *)
Example Watermark_init_a_b_c :
  Watermark_init "2024-01-02" "hive" "sales" "orders" "a=b=c"
                 default_part_type default_cluster
  = inr (mkWatermark "2024-01-02" "hive" "sales" "orders" [("a", "b=c")]
                     "high_watermark" "gold"
                     ForCreated OnceCreated ForCreated ForCreated).
Proof. vm_compute. reflexivity. Qed.

(** C2: when [part_name] contains no ['='], construction raises the
    exception and returns no instance. *)
Theorem Watermark_init_no_eq_sign_raises ct db sc tb pn pt cl :
  ~ In "="%char (list_ascii_of_string pn) ->
  Watermark_init ct db sc tb pn pt cl =
    inl (Exception "Only partition table has high watermark") /\
  forall w, Watermark_init ct db sc tb pn pt cl <> inr w.
Proof.
  intros Hn. apply contains_eq_sign_false in Hn.
  unfold Watermark_init. rewrite Hn. cbn [negb]. split; [reflexivity | discriminate].
Qed.

Lemma Watermark_init_no_eq_sign_raises_witness :
  Watermark_init "2024-01-02" "hive" "sales" "orders" "ds" default_part_type default_cluster =
    inl (Exception "Only partition table has high watermark") /\
  forall w, Watermark_init "2024-01-02" "hive" "sales" "orders" "ds"
                           default_part_type default_cluster <> inr w.
Proof.
  apply (Watermark_init_no_eq_sign_raises
           "2024-01-02" "hive" "sales" "orders" "ds" default_part_type default_cluster).
  cbn. intros [H|[H|[]]]; discriminate H.
Defined.

(** ** Identity keys *)

(** Formatting [KEY_FORMAT] raises nothing and substitutes the five values
    as they are. *)
Lemma KEY_FORMAT_format db cl sc tb pt :
  PyStr.format KEY_FORMAT [("database", db); ("cluster", cl); ("schema", sc);
                           ("table", tb); ("part_type", pt)]
  = Some (db +:+ "://" +:+ cl +:+ "." +:+ sc +:+ "/" +:+ tb +:+ "/" +:+ pt +:+ "/").
Proof. reflexivity. Qed.

Lemma get_watermark_model_key_eq w :
  get_watermark_model_key w =
  database w +:+ "://" +:+ cluster w +:+ "." +:+ schema w +:+ "/" +:+ table w
    +:+ "/" +:+ part_type w +:+ "/".
Proof. unfold get_watermark_model_key. now rewrite KEY_FORMAT_format. Qed.

Lemma same_fields_refl w : same_fields w w.
Proof. repeat split. Qed.

Lemma same_fields_trans w1 w2 w3 :
  same_fields w1 w2 -> same_fields w2 w3 -> same_fields w1 w3.
Proof.
  unfold same_fields. intros (?&?&?&?&?&?&?) (?&?&?&?&?&?&?).
  repeat split; congruence.
Qed.

Lemma same_fields_keys w1 w2 :
  same_fields w1 w2 ->
  get_watermark_model_key w1 = get_watermark_model_key w2 /\
  get_metadata_model_key w1 = get_metadata_model_key w2.
Proof.
  intros (_ & Hd & Hs & Ht & _ & Hp & Hc).
  rewrite !get_watermark_model_key_eq. unfold get_metadata_model_key.
  rewrite Hd, Hs, Ht, Hp, Hc. split; reflexivity.
Qed.

(** Unfold a call of an accessor down to the step of its generator. *)
Ltac unfold_accessors :=
  unfold pull, create_next_node, create_next_relation, create_next_record,
    create_next_atlas_entity, create_next_atlas_relation,
    next_node_iter, next_relation_iter, next_record_iter,
    next_atlas_entity_iterator, bind, ret in *;
  cbv beta in *.

(** A call of an accessor changes generator states only. *)
Lemma pull_same_fields p w : same_fields (pull p w).2 w.
Proof.
  destruct p; unfold_accessors.
  - destruct (for_gen_next _ _ _). repeat split.
  - destruct (once_gen_next _ _). repeat split.
  - destruct (for_gen_next _ _ _). repeat split.
  - destruct (for_gen_next _ _ _). repeat split.
  - repeat split.
Qed.

Lemma pulls_same_fields ps w : same_fields (pulls ps w).2 w.
Proof.
  revert w. induction ps as [|p ps IH]; intros w; cbn [pulls].
  - apply same_fields_refl.
  - unfold bind, ret. pose proof (pull_same_fields p w) as Hp.
    destruct (pull p w) as [r w1]. pose proof (IH w1) as Hps.
    destruct (pulls ps w1) as [rs w2]. cbn [snd] in *.
    eapply same_fields_trans; eassumption.
Qed.

(** C3: the two keys of a constructed instance are the two texts built from
    its identifying fields, at construction and after any calls of the
    accessors; two instances constructed with the same identifying fields
    have the same keys, whatever their [create_time] and [part_name]. *)
Theorem model_keys_of_identifying_fields
        ct1 ct2 db sc tb pn1 pn2 pt cl w1 w2 (ps1 ps2 : list producer) :
  Watermark_init ct1 db sc tb pn1 pt cl = inr w1 ->
  Watermark_init ct2 db sc tb pn2 pt cl = inr w2 ->
  let w1' := (pulls ps1 w1).2 in
  let w2' := (pulls ps2 w2).2 in
  get_watermark_model_key w1' =
    db +:+ "://" +:+ cl +:+ "." +:+ sc +:+ "/" +:+ tb +:+ "/" +:+ pt +:+ "/" /\
  get_metadata_model_key w1' = db +:+ "://" +:+ cl +:+ "." +:+ sc +:+ "/" +:+ tb /\
  get_watermark_model_key w2' = get_watermark_model_key w1' /\
  get_metadata_model_key w2' = get_metadata_model_key w1'.
Proof.
  intros H1 H2 w1' w2'.
  destruct (Watermark_init_inr _ _ _ _ _ _ _ _ H1) as (k1 & v1 & _ & _ & E1).
  destruct (Watermark_init_inr _ _ _ _ _ _ _ _ H2) as (k2 & v2 & _ & _ & E2).
  destruct (same_fields_keys w1' w1 (pulls_same_fields ps1 w1)) as [Hk1 Hm1].
  destruct (same_fields_keys w2' w2 (pulls_same_fields ps2 w2)) as [Hk2 Hm2].
  rewrite Hk1, Hm1, Hk2, Hm2, !get_watermark_model_key_eq.
  unfold get_metadata_model_key. subst w1 w2. cbn. repeat split.
Qed.

Lemma model_keys_of_identifying_fields_witness :
  exists w1 w2,
    let w1' := (pulls [NodeProducer; RecordProducer] w1).2 in
    let w2' := (pulls [] w2).2 in
    get_watermark_model_key w1' = "hive://gold.sales/orders/high_watermark/" /\
    get_metadata_model_key w1' = "hive://gold.sales/orders" /\
    get_watermark_model_key w2' = get_watermark_model_key w1' /\
    get_metadata_model_key w2' = get_metadata_model_key w1'.
Proof.
  eexists _, _.
  apply (model_keys_of_identifying_fields
           "2024-01-02T00:00:00" "2024-02-02T00:00:00" "hive" "sales" "orders"
           "ds=2024-01-01" "hour=12" default_part_type default_cluster);
    vm_compute; reflexivity.
Defined.

(** ** Generators that loop over [parts] *)

Section for_producer.

Context {A : Type}.
Variable get : Watermark -> for_gen.
Variable set : for_gen -> Watermark -> Watermark.
Variable body : Watermark -> string * string -> A.

Hypothesis get_set : forall g w, get (set g w) = g.
Hypothesis set_set : forall g g' w, set g (set g' w) = set g w.
Hypothesis parts_set : forall g w, parts (set g w) = parts w.
Hypothesis body_set : forall g w, body (set g w) = body w.

Local Notation next := (for_accessor get set body).

Lemma for_accessor_suspended w seq pos :
  get w = ForSuspended seq pos ->
  next w = match seq !! pos with
           | Some part => (Some (body w part), set (ForSuspended seq (S pos)) w)
           | None => (None, set ForClosed w)
           end.
Proof.
  intros Hg. unfold for_accessor. rewrite Hg.
  cbn [for_gen_next]. unfold for_gen_loop. now destruct (seq !! pos).
Qed.

Lemma for_accessor_created w :
  get w = ForCreated ->
  next w = match parts w !! 0%nat with
           | Some part => (Some (body w part), set (ForSuspended (parts w) 1) w)
           | None => (None, set ForClosed w)
           end.
Proof.
  intros Hg. unfold for_accessor. rewrite Hg.
  cbn [for_gen_next]. unfold for_gen_loop. now destruct (parts w !! 0%nat).
Qed.

Lemma for_accessor_closed w :
  get w = ForClosed -> next w = (None, set ForClosed w).
Proof. intros Hg. unfold for_accessor. now rewrite Hg. Qed.

(** [None] is returned only by a generator that is finished afterwards. *)
Lemma for_accessor_None w w' :
  next w = (None, w') -> get w' = ForClosed.
Proof.
  unfold for_accessor. 
  destruct (get w) as [|seq pos|]; cbn [for_gen_next]; unfold for_gen_loop.
  - destruct (parts w !! 0%nat); cbn [or_none]; intros [= <-]; apply get_set.
  - destruct (seq !! pos); cbn [or_none]; intros [= <-]; apply get_set.
  - cbn [or_none]. intros [= <-]. apply get_set.
Qed.

(** Draining a suspended generator yields the rest of its list. *)
Lemma drain_for_suspended fuel : forall w seq pos,
  get w = ForSuspended seq pos ->
  (length seq - pos < fuel)%nat ->
  drain next fuel w = (map (body w) (drop pos seq), set ForClosed w).
Proof.
  induction fuel as [|fuel IH]; intros w seq pos Hg Hfuel; [lia|].
  cbn [drain]. unfold bind at 1. rewrite (for_accessor_suspended w seq pos Hg).
  destruct (seq !! pos) as [part|] eqn:Hl.
  - unfold bind, ret.
    rewrite (IH (set (ForSuspended seq (S pos)) w) seq (S pos)).
    + rewrite body_set, set_set. rewrite (drop_S _ _ _ Hl). reflexivity.
    + apply get_set.
    + apply lookup_lt_Some in Hl. lia.
  - unfold ret. apply lookup_ge_None in Hl. now rewrite drop_ge by lia.
Qed.

(** Draining a created generator yields one item per pair of [parts]. *)
Lemma drain_for_created fuel w :
  get w = ForCreated ->
  (length (parts w) < fuel)%nat ->
  drain next fuel w = (map (body w) (parts w), set ForClosed w).
Proof.
  intros Hg Hfuel. destruct fuel as [|fuel]; [lia|].
  cbn [drain]. unfold bind at 1. rewrite (for_accessor_created w Hg).
  destruct (parts w) as [|part rest] eqn:Hp; cbn [lookup list_lookup].
  - reflexivity.
  - unfold bind, ret.
    rewrite (drain_for_suspended fuel _ (part :: rest) 1).
    + rewrite body_set, set_set. reflexivity.
    + apply get_set.
    + cbn [length] in *. lia.
Qed.

End for_producer.

(** The three accessors over [parts] are instances of [for_accessor]. *)
Lemma create_next_node_for w :
  create_next_node w = for_accessor _node_iter set_node_iter _create_node_iterator w.
Proof. unfold_accessors. unfold for_accessor. now destruct (for_gen_next _ _ _). Qed.

Lemma create_next_record_for w :
  create_next_record w = for_accessor _record_iter set_record_iter _create_next_record w.
Proof. unfold_accessors. unfold for_accessor. now destruct (for_gen_next _ _ _). Qed.

Lemma create_next_atlas_entity_for w :
  create_next_atlas_entity w =
  for_accessor _atlas_entity_iterator set_atlas_entity_iterator
               _create_atlas_partition_entity w.
Proof. unfold_accessors. unfold for_accessor. now destruct (for_gen_next _ _ _). Qed.

Lemma drain_ext {A : Type} (f g : M (option A)) :
  (forall w, f w = g w) -> forall fuel w, drain f fuel w = drain g fuel w.
Proof.
  intros Hfg. induction fuel as [|fuel IH]; intros w; cbn [drain]; [reflexivity|].
  unfold bind. rewrite Hfg. destruct (g w) as [[a|] w']; [|reflexivity].
  now rewrite IH.
Qed.

(** ** The graph producers *)

Lemma node_attributes_eq (k v ct : string) :
  <["create_time" := ct]> (<["partition_value" := v]> (<["partition_key" := k]> ∅))
  = ({[ "partition_key" := k; "partition_value" := v; "create_time" := ct ]}
      : gmap string string).
Proof.
  apply map_eq. intros i.
  destruct (decide (i = "create_time")) as [->|H1]; [reflexivity|].
  destruct (decide (i = "partition_value")) as [->|H2]; [reflexivity|].
  destruct (decide (i = "partition_key")) as [->|H3]; [reflexivity|].
  rewrite !lookup_insert_ne, lookup_singleton_ne, lookup_empty by congruence.
  reflexivity.
Qed.

Lemma drain_create_next_node fuel w :
  _node_iter w = ForCreated ->
  (length (parts w) < fuel)%nat ->
  drain create_next_node fuel w =
  (map (_create_node_iterator w) (parts w), set_node_iter ForClosed w).
Proof.
  intros Hg Hf. rewrite (drain_ext _ _ create_next_node_for).
  now apply drain_for_created.
Qed.

(** C5: draining the node accessor of a constructed instance yields one
    node, as many as [parts] has pairs, with the watermark key, the label
    [Watermark] and the three attributes of the pair; on any instance whose
    node generator is created it yields one such node per pair of [parts],
    in order. *)
Theorem create_next_node_yields_one_per_part ct db sc tb pn pt cl w fuel :
  Watermark_init ct db sc tb pn pt cl = inr w ->
  (2 <= fuel)%nat ->
  let node_of (self : Watermark) (part : string * string) :=
    GraphNode.mk (get_watermark_model_key self) "Watermark"
                 {[ "partition_key" := part.1; "partition_value" := part.2;
                    "create_time" := create_time self ]} in
  (exists k v,
      parts w = [(k, v)] /\
      (drain create_next_node fuel w).1 =
        [GraphNode.mk (get_watermark_model_key w) "Watermark"
                      {[ "partition_key" := k; "partition_value" := v;
                         "create_time" := ct ]}]) /\
  length (drain create_next_node fuel w).1 = length (parts w) /\
  forall w' fuel',
    _node_iter w' = ForCreated -> (length (parts w') < fuel')%nat ->
    (drain create_next_node fuel' w').1 = map (node_of w') (parts w').
Proof.
  intros Hinit Hfuel node_of.
  assert (forall w' fuel',
             _node_iter w' = ForCreated -> (length (parts w') < fuel')%nat ->
             (drain create_next_node fuel' w').1 = map (node_of w') (parts w')) as Hall.
  { intros w' fuel' Hg Hf. rewrite drain_create_next_node by assumption.
    cbn [fst]. apply map_ext. intros part.
    unfold _create_node_iterator, node_of, LABEL. now rewrite node_attributes_eq. }
  destruct (Watermark_init_inr _ _ _ _ _ _ _ _ Hinit) as (k & v & _ & _ & ->).
  split; [|split; [|exact Hall]].
  - exists k, v. split; [reflexivity|]. rewrite Hall by (cbn; solve [reflexivity | lia]).
    reflexivity.
  - rewrite Hall by (cbn; solve [reflexivity | lia]). now rewrite length_map.
Qed.

Lemma create_next_node_yields_one_per_part_witness :
  exists w,
    (drain create_next_node 3 w).1 =
      [GraphNode.mk "hive://gold.sales/orders/high_watermark/" "Watermark"
                    {[ "partition_key" := "ds"; "partition_value" := "2024-01-01";
                       "create_time" := "2024-01-02T00:00:00" ]}] /\
    length (drain create_next_node 3 w).1 = length (parts w).
Proof.
  eexists.
  destruct (create_next_node_yields_one_per_part
              "2024-01-02T00:00:00" "hive" "sales" "orders" "ds=2024-01-01"
              default_part_type default_cluster _ 3 eq_refl ltac:(lia))
    as ((k & v & Hp & Hd) & Hlen & _).
  split; [|exact Hlen].
  rewrite Hd. injection Hp as <- <-. reflexivity.
Defined.

(** C6: draining the relation accessor of a constructed instance yields one
    relationship, from the watermark key with label [Watermark] to the table
    key with label [Table], of type [BELONG_TO_TABLE], reverse type
    [WATERMARK] and no attribute; the same holds on any instance whose
    relation generator is created, whatever the length of its [parts]. *)
Theorem create_next_relation_yields_one ct db sc tb pn pt cl w fuel :
  Watermark_init ct db sc tb pn pt cl = inr w ->
  (2 <= fuel)%nat ->
  let relation_of (self : Watermark) :=
    GraphRelationship.mk (get_watermark_model_key self) "Watermark"
                         (get_metadata_model_key self) "Table"
                         "BELONG_TO_TABLE" "WATERMARK" ∅ in
  (drain create_next_relation fuel w).1 = [relation_of w] /\
  forall w', _relation_iter w' = OnceCreated ->
             (drain create_next_relation fuel w').1 = [relation_of w'].
Proof.
  intros Hinit Hfuel relation_of.
  assert (forall w', _relation_iter w' = OnceCreated ->
                     (drain create_next_relation fuel w').1 = [relation_of w']) as Hall.
  { intros w' Hg. destruct fuel as [|[|fuel]]; [lia | lia |].
    cbn [drain]. unfold_accessors. rewrite Hg. reflexivity. }
  split; [|exact Hall].
  apply Hall. now destruct (Watermark_init_fresh _ _ _ _ _ _ _ _ Hinit) as (_ & ? & _).
Qed.

Lemma create_next_relation_yields_one_witness :
  exists w,
    (drain create_next_relation 5 w).1 =
      [GraphRelationship.mk "hive://gold.sales/orders/high_watermark/" "Watermark"
                            "hive://gold.sales/orders" "Table"
                            "BELONG_TO_TABLE" "WATERMARK" ∅].
Proof.
  eexists.
  exact (proj1 (create_next_relation_yields_one
                  "2024-01-02T00:00:00" "hive" "sales" "orders" "ds=2024-01-01"
                  default_part_type default_cluster _ 5 eq_refl ltac:(lia))).
Defined.

(** ** The catalog producers *)

Lemma entity_attributes_eq (wk k v ct : string) :
  get_entity_attrs [(AtlasCommonParams.qualified_name, wk); ("name", v);
                    ("displayName", v); ("key", k); ("create_time", ct)]
  = ({[ "qualifiedName" := wk; "name" := v; "displayName" := v; "key" := k;
        "create_time" := ct ]} : gmap string string).
Proof.
  unfold get_entity_attrs, AtlasCommonParams.qualified_name. cbn [foldl fst snd].
  apply map_eq. intros i.
  destruct (decide (i = "create_time")) as [->|H1]; [reflexivity|].
  destruct (decide (i = "key")) as [->|H2]; [reflexivity|].
  destruct (decide (i = "displayName")) as [->|H3]; [reflexivity|].
  destruct (decide (i = "name")) as [->|H4]; [reflexivity|].
  destruct (decide (i = "qualifiedName")) as [->|H5]; [reflexivity|].
  rewrite !lookup_insert_ne, lookup_singleton_ne, lookup_empty by congruence.
  reflexivity.
Qed.

Lemma drain_create_next_atlas_entity fuel w :
  _atlas_entity_iterator w = ForCreated ->
  (length (parts w) < fuel)%nat ->
  drain create_next_atlas_entity fuel w =
  (map (_create_atlas_partition_entity w) (parts w),
   set_atlas_entity_iterator ForClosed w).
Proof.
  intros Hg Hf. rewrite (drain_ext _ _ create_next_atlas_entity_for).
  now apply drain_for_created.
Qed.

(** C7: draining the entity accessor of a constructed instance yields one
    entity for its one pair: of the watermark type, with operation CREATE,
    with the attributes made from the ordered list (qualifiedName, name,
    displayName, key, create_time) and with the one relationship, in field
    [table], to the entity of the table type whose qualified name is the
    table key; on any instance whose entity generator is created it yields
    one such entity per pair of [parts]. *)
Theorem create_next_atlas_entity_yields_one_per_part ct db sc tb pn pt cl w fuel :
  Watermark_init ct db sc tb pn pt cl = inr w ->
  (2 <= fuel)%nat ->
  let entity_of (self : Watermark) (part : string * string) :=
    AtlasEntity.mk
      AtlasTableTypes.watermark
      AtlasSerializedEntityOperation.CREATE
      (get_entity_attrs [(AtlasCommonParams.qualified_name, get_watermark_model_key self);
                         ("name", part.2);
                         ("displayName", part.2);
                         ("key", part.1);
                         ("create_time", create_time self)])
      [("table", AtlasTableTypes.table, get_metadata_model_key self)] in
  (exists k v,
      parts w = [(k, v)] /\
      (drain create_next_atlas_entity fuel w).1 = [entity_of w (k, v)] /\
      AtlasEntity.attributes (entity_of w (k, v)) =
        {[ "qualifiedName" := get_watermark_model_key w; "name" := v;
           "displayName" := v; "key" := k; "create_time" := ct ]}) /\
  forall w' fuel',
    _atlas_entity_iterator w' = ForCreated -> (length (parts w') < fuel')%nat ->
    (drain create_next_atlas_entity fuel' w').1 = map (entity_of w') (parts w').
Proof.
  intros Hinit Hfuel entity_of.
  assert (forall w' fuel',
             _atlas_entity_iterator w' = ForCreated -> (length (parts w') < fuel')%nat ->
             (drain create_next_atlas_entity fuel' w').1 = map (entity_of w') (parts w'))
    as Hall.
  { intros w' fuel' Hg Hf. now rewrite drain_create_next_atlas_entity by assumption. }
  destruct (Watermark_init_inr _ _ _ _ _ _ _ _ Hinit) as (k & v & _ & _ & ->).
  split; [|exact Hall].
  exists k, v. split; [reflexivity|]. split.
  - rewrite Hall by (cbn; solve [reflexivity | lia]). reflexivity.
  - apply entity_attributes_eq.
Qed.

Lemma create_next_atlas_entity_yields_one_per_part_witness :
  exists w,
    (drain create_next_atlas_entity 2 w).1 =
      [AtlasEntity.mk
         AtlasTableTypes.watermark AtlasSerializedEntityOperation.CREATE
         (get_entity_attrs [("qualifiedName", "hive://gold.sales/orders/high_watermark/");
                            ("name", "2024-01-01"); ("displayName", "2024-01-01");
                            ("key", "ds"); ("create_time", "2024-01-02T00:00:00")])
         [("table", AtlasTableTypes.table, "hive://gold.sales/orders")]].
Proof.
  eexists.
  destruct (create_next_atlas_entity_yields_one_per_part
              "2024-01-02T00:00:00" "hive" "sales" "orders" "ds=2024-01-01"
              default_part_type default_cluster _ 2 eq_refl ltac:(lia))
    as ((k & v & Hp & Hd & _) & _).
  rewrite Hd. injection Hp as <- <-. reflexivity.
Defined.

(** C8: the accessor of catalog relationships returns [None] on every call,
    in every state of the instance, and leaves the instance as it is; a
    caller that drains it collects nothing. *)
Theorem create_next_atlas_relation_yields_nothing (w : Watermark) (fuel : nat) :
  create_next_atlas_relation w = (None, w) /\
  drain create_next_atlas_relation fuel w = ([], w).
Proof.
  split; [reflexivity|]. destruct fuel; reflexivity.
Qed.

(** ** One identity in the three representations *)

Lemma for_gen_next_Yield {A : Type} (body : string * string -> A) seq g a g' :
  for_gen_next body seq g = (Yield a, g') -> exists part, a = body part.
Proof.
  destruct g as [|seq' pos|]; cbn [for_gen_next]; unfold for_gen_loop.
  - destruct (seq !! 0%nat) as [part|]; intros [= <- _]. now exists part.
  - destruct (seq' !! pos) as [part|]; intros [= <- _]. now exists part.
  - discriminate.
Qed.

Lemma entity_qualified_name (wk k v ct : string) :
  get_entity_attrs [(AtlasCommonParams.qualified_name, wk); ("name", v);
                    ("displayName", v); ("key", k); ("create_time", ct)]
    !! "qualifiedName" = Some wk.
Proof. rewrite entity_attributes_eq. reflexivity. Qed.

(** Whatever an accessor returns carries the keys of the instance it was
    called on. *)
Lemma pull_carries_keys p w it w' :
  pull p w = (Some it, w') ->
  carries_keys (get_watermark_model_key w) (get_metadata_model_key w) it.
Proof.
  destruct p; unfold_accessors.
  - destruct (for_gen_next _ _ _) as [[n|] g] eqn:E; cbn; intros [= <- _].
    apply for_gen_next_Yield in E as [part ->]. reflexivity.
  - destruct (once_gen_next _ _) as [[r|] g] eqn:E; cbn; intros [= <- _].
    destruct (_relation_iter w); cbn in E; injection E as <- _ || discriminate E.
    split; reflexivity.
  - destruct (for_gen_next _ _ _) as [[r|] g] eqn:E; cbn; intros [= <- _].
    apply for_gen_next_Yield in E as [part ->]. split; reflexivity.
  - destruct (for_gen_next _ _ _) as [[e|] g] eqn:E; cbn; intros [= <- _].
    apply for_gen_next_Yield in E as [part ->]. split; [|reflexivity].
    apply entity_qualified_name.
  - discriminate.
Qed.

Lemma pulls_carry_keys ps : forall w it,
  Some it ∈ (pulls ps w).1 ->
  carries_keys (get_watermark_model_key w) (get_metadata_model_key w) it.
Proof.
  induction ps as [|p ps IH]; intros w it; cbn [pulls].
  - unfold ret. cbn [fst]. intros H. now apply elem_of_nil in H.
  - unfold bind, ret.
    pose proof (pull_carries_keys p w) as Hp.
    pose proof (pull_same_fields p w) as Hf.
    destruct (pull p w) as [r w1]. cbn [snd] in Hf.
    pose proof (IH w1 it) as Hps.
    destruct (pulls ps w1) as [rs w2]. cbn [fst] in *.
    intros [E|Hin]%elem_of_cons.
    + subst r. now apply (Hp it w1).
    + destruct (same_fields_keys _ _ Hf) as [<- <-]. now apply Hps.
Qed.

(** ** Exhaustion *)

(** An accessor returns [None] only when its generator is finished
    afterwards. *)
Lemma pull_None_exhausted p w :
  (pull p w).1 = None -> exhausted p (pull p w).2.
Proof.
  destruct p; unfold_accessors; cbn [exhausted].
  - destruct (for_gen_next _ _ _) as [[n|] g] eqn:E; cbn; [discriminate|]. intros _.
    destruct (_node_iter w) as [|seq pos|]; cbn in E; unfold for_gen_loop in E.
    + destruct (parts w !! 0%nat); now inversion E.
    + destruct (seq !! pos); now inversion E.
    + now inversion E.
  - destruct (once_gen_next _ _) as [[r|] g] eqn:E; cbn; [discriminate|]. intros _.
    destruct (_relation_iter w); cbn in E; now inversion E.
  - destruct (for_gen_next _ _ _) as [[n|] g] eqn:E; cbn; [discriminate|]. intros _.
    destruct (_record_iter w) as [|seq pos|]; cbn in E; unfold for_gen_loop in E.
    + destruct (parts w !! 0%nat); now inversion E.
    + destruct (seq !! pos); now inversion E.
    + now inversion E.
  - destruct (for_gen_next _ _ _) as [[n|] g] eqn:E; cbn; [discriminate|]. intros _.
    destruct (_atlas_entity_iterator w) as [|seq pos|]; cbn in E; unfold for_gen_loop in E.
    + destruct (parts w !! 0%nat); now inversion E.
    + destruct (seq !! pos); now inversion E.
    + now inversion E.
  - exact (fun _ => I).
Qed.

(** A finished generator stays finished under a call of any accessor. *)
Lemma pull_preserves_exhausted p q w :
  exhausted p w -> exhausted p (pull q w).2.
Proof.
  destruct p, q; cbn [exhausted]; intros H; unfold_accessors;
    try rewrite H; cbn;
    try (destruct (for_gen_next _ _ _) as [r g]);
    try (destruct (once_gen_next _ _) as [r g]);
    cbn; solve [exact H | exact I | reflexivity].
Qed.

Lemma pulls_preserve_exhausted p qs : forall w,
  exhausted p w -> exhausted p (pulls qs w).2.
Proof.
  induction qs as [|q qs IH]; intros w H; cbn [pulls]; [exact H|].
  unfold bind, ret. pose proof (pull_preserves_exhausted p q w H) as H1.
  destruct (pull q w) as [r w1]. pose proof (IH w1 H1) as H2.
  now destruct (pulls qs w1) as [rs w2].
Qed.

(** The accessor of a finished generator returns [None]. *)
Lemma exhausted_pull_None p w :
  exhausted p w -> (pull p w).1 = None.
Proof.
  destruct p; cbn [exhausted]; intros H; unfold_accessors; try rewrite H; reflexivity.
Qed.

(** C9: on a constructed instance, after any calls of the accessors, once an
    accessor has returned [None] it returns [None] at every later call,
    whatever calls of the five accessors come in between. *)
Theorem exhaustion_is_idempotent ct db sc tb pn pt cl w0 (ps qs : list producer) p :
  Watermark_init ct db sc tb pn pt cl = inr w0 ->
  let w1 := (pulls ps w0).2 in
  (pull p w1).1 = None ->
  let w2 := (pull p w1).2 in
  (pull p (pulls qs w2).2).1 = None.
Proof.
  intros _ w1 Hnone w2.
  apply exhausted_pull_None, pulls_preserve_exhausted.
  now apply pull_None_exhausted.
Qed.

Lemma exhaustion_is_idempotent_witness :
  let w0 := mkWatermark "2024-01-02T00:00:00" "hive" "sales" "orders"
                        [("ds", "2024-01-01")] "high_watermark" "gold"
                        ForCreated OnceCreated ForCreated ForCreated in
  let w2 := (pull NodeProducer (pulls [NodeProducer] w0).2).2 in
  (pull NodeProducer (pulls [RecordProducer; NodeProducer; RelationProducer] w2).2).1 = None.
Proof.
  intros w0 w2.
  apply (exhaustion_is_idempotent
           "2024-01-02T00:00:00" "hive" "sales" "orders" "ds=2024-01-01"
           default_part_type default_cluster w0 [NodeProducer]
           [RecordProducer; NodeProducer; RelationProducer] NodeProducer).
  - reflexivity.
  - reflexivity.
Defined.

(** ** Empty partition keys and values *)

(** On an instance with created generators and one pair, the first node,
    record and entity carry the pair as it is. *)
Lemma emitted_pair_fresh w k v :
  parts w = [(k, v)] -> fresh w -> emitted_pair w k v.
Proof.
  intros Hp (Hn & _ & Hr & He).
  exists (_create_node_iterator w (k, v)), (_create_next_record w (k, v)),
         (_create_atlas_partition_entity w (k, v)).
  unfold_accessors. rewrite Hn, Hr, He, Hp. cbn [for_gen_next].
  unfold for_gen_loop. cbn [lookup list_lookup or_none fst snd].
  unfold _create_atlas_partition_entity, _create_node_iterator, _create_next_record.
  cbn [GraphNode.attributes RDSTableWatermark.partition_key
       RDSTableWatermark.partition_value AtlasEntity.attributes fst snd].
  rewrite entity_attributes_eq, node_attributes_eq.
  repeat split.
Qed.

(** C10, as the code has it: every [part_name] that begins with ['='] gives
    the empty partition key, and every [part_name] whose only ['='] is its
    last character gives the empty partition value; the first graph node,
    tabular record and catalog entity carry these empty texts as they are.
    No other field is looked at. *)
Theorem empty_key_or_value_kept ct db sc tb pt cl k v :
  ~ In "="%char (list_ascii_of_string k) ->
  (exists w,
      Watermark_init ct db sc tb ("=" +:+ v) pt cl = inr w /\
      parts w = [("", v)] /\ emitted_pair w "" v) /\
  (exists w,
      Watermark_init ct db sc tb (k +:+ "=") pt cl = inr w /\
      parts w = [(k, "")] /\ emitted_pair w k "").
Proof.
  intros Hk. split.
  - eexists. split.
    + apply (Watermark_init_split ct db sc tb "" v pt cl). cbn. tauto.
    + split; [reflexivity|]. apply emitted_pair_fresh; repeat split.
  - eexists. split.
    + apply (Watermark_init_split ct db sc tb k "" pt cl Hk).
    + split; [reflexivity|]. apply emitted_pair_fresh; repeat split.
Qed.

Lemma empty_key_or_value_kept_witness :
  (exists w,
      Watermark_init "" "" "" "" ("=" +:+ "v") "" "" = inr w /\
      parts w = [("", "v")] /\ emitted_pair w "" "v") /\
  (exists w,
      Watermark_init "" "" "" "" ("k" +:+ "=") "" "" = inr w /\
      parts w = [("k", "")] /\ emitted_pair w "k" "").
Proof.
  apply (empty_key_or_value_kept "" "" "" "" "" "" "k" "v").
  cbn. intros [H|[]]. discriminate H.
Defined.

(** The text "a=b=" ends with ['='] and its partition value is "b=", not the
    empty text: the split is at the first ['=']. *)
Lemma trailing_eq_sign_value_not_empty :
  "a=b=" = "a=b" +:+ "=" /\
  exists w,
    Watermark_init "2024-01-02" "hive" "sales" "orders" "a=b="
                   default_part_type default_cluster = inr w /\
    parts w = [("a", "b=")] /\
    "b=" <> "".
Proof.
  split; [reflexivity|]. eexists. split; [reflexivity|].
  split; [reflexivity | discriminate].
Qed.

(** ** The example of the specification *)

Example hive_sales_orders :
  let w := mkWatermark "2024-01-02T00:00:00" "hive" "sales" "orders"
                       [("ds", "2024-01-01")] "high_watermark" "gold"
                       ForCreated OnceCreated ForCreated ForCreated in
  Watermark_init "2024-01-02T00:00:00" "hive" "sales" "orders" "ds=2024-01-01"
                 default_part_type default_cluster = inr w /\
  get_watermark_model_key w = "hive://gold.sales/orders/high_watermark/" /\
  get_metadata_model_key w = "hive://gold.sales/orders" /\
  (pulls [RelationProducer; RecordProducer; RelationProducer; RecordProducer;
          AtlasRelationProducer] w).1 =
  [Some (RelationItem
           (GraphRelationship.mk "hive://gold.sales/orders/high_watermark/" "Watermark"
                                 "hive://gold.sales/orders" "Table"
                                 "BELONG_TO_TABLE" "WATERMARK" ∅));
   Some (RecordItem
           (RDSTableWatermark.mk "hive://gold.sales/orders/high_watermark/"
                                 "ds" "2024-01-01" "2024-01-02T00:00:00"
                                 "hive://gold.sales/orders"));
   None; None; None].
Proof. repeat split. Qed.

(** * Further properties of the model *)

(** ** The tabular producer *)

Lemma drain_create_next_record fuel w :
  _record_iter w = ForCreated ->
  (length (parts w) < fuel)%nat ->
  drain create_next_record fuel w =
  (map (_create_next_record w) (parts w), set_record_iter ForClosed w).
Proof.
  intros Hg Hf. rewrite (drain_ext _ _ create_next_record_for).
  now apply drain_for_created.
Qed.

(** X1: draining the record accessor of a constructed instance yields one
    record: its [rk] is the watermark key, its partition key and value are
    the two sides of the first ['='] of [part_name], its [create_time] is
    the one given, its [table_rk] is the table key. *)
Theorem create_next_record_yields_one ct db sc tb pn pt cl w fuel :
  Watermark_init ct db sc tb pn pt cl = inr w ->
  (2 <= fuel)%nat ->
  exists k v,
    pn = k +:+ "=" +:+ v /\
    ~ In "="%char (list_ascii_of_string k) /\
    (drain create_next_record fuel w).1 =
      [RDSTableWatermark.mk
         (db +:+ "://" +:+ cl +:+ "." +:+ sc +:+ "/" +:+ tb +:+ "/" +:+ pt +:+ "/")
         k v ct
         (db +:+ "://" +:+ cl +:+ "." +:+ sc +:+ "/" +:+ tb)].
Proof.
  intros Hinit Hfuel.
  destruct (Watermark_init_inr _ _ _ _ _ _ _ _ Hinit) as (k & v & Hpn & Hk & ->).
  exists k, v. split; [exact Hpn|]. split; [exact Hk|].
  rewrite drain_create_next_record by (cbn; solve [reflexivity | lia]).
  reflexivity.
Qed.

Lemma create_next_record_yields_one_witness :
  exists k v,
    "ds=2024-01-01" = k +:+ "=" +:+ v /\
    ~ In "="%char (list_ascii_of_string k) /\
    (drain create_next_record 2
           (mkWatermark "2024-01-02T00:00:00" "hive" "sales" "orders"
                        [("ds", "2024-01-01")] "high_watermark" "gold"
                        ForCreated OnceCreated ForCreated ForCreated)).1 =
      [RDSTableWatermark.mk
         ("hive" +:+ "://" +:+ "gold" +:+ "." +:+ "sales" +:+ "/" +:+ "orders" +:+ "/"
                 +:+ "high_watermark" +:+ "/")
         k v "2024-01-02T00:00:00"
         ("hive" +:+ "://" +:+ "gold" +:+ "." +:+ "sales" +:+ "/" +:+ "orders")].
Proof.
  apply (create_next_record_yields_one
           "2024-01-02T00:00:00" "hive" "sales" "orders" "ds=2024-01-01"
           default_part_type default_cluster _ 2).
  - reflexivity.
  - lia.
Defined.

(** ** What is still to come *)

Lemma for_gen_next_pending {A : Type} (body : string * string -> A) sp sp' g :
  or_none (for_gen_next body sp g).1 = head (for_pending body sp g) /\
  for_pending body sp' (for_gen_next body sp g).2 = tail (for_pending body sp g).
Proof.
  destruct g as [|seq pos|]; cbn [for_gen_next for_pending]; unfold for_gen_loop.
  - destruct sp as [|part rest]; cbn; [now split|].
    now rewrite drop_0.
  - destruct (seq !! pos) as [part|] eqn:Hl.
    + rewrite (drop_S _ _ _ Hl). now split.
    + apply lookup_ge_None in Hl. rewrite drop_ge by lia. now split.
  - now split.
Qed.

Lemma once_gen_next_pending {A : Type} (it : A) g :
  or_none (once_gen_next it g).1 = head (once_pending it g) /\
  once_pending it (once_gen_next it g).2 = tail (once_pending it g).
Proof. destruct g; now split. Qed.

Lemma head_fmap {A B : Type} (f : A -> B) (l : list A) :
  head (f <$> l) = f <$> head l.
Proof. now destruct l. Qed.

Lemma tail_fmap {A B : Type} (f : A -> B) (l : list A) :
  tail (f <$> l) = f <$> tail l.
Proof. now destruct l. Qed.

(** A call of [p] returns the first pending item of [p] and leaves the
    others pending. *)
Lemma pull_pending p w :
  (pull p w).1 = head (pending p w) /\
  pending p (pull p w).2 = tail (pending p w).
Proof.
  destruct p; unfold_accessors; cbn [pending]; rewrite ?head_fmap, ?tail_fmap.
  - pose proof (for_gen_next_pending (_create_node_iterator w) (parts w) (parts w)
                                     (_node_iter w)) as [H1 H2].
    destruct (for_gen_next _ _ _) as [r g]. cbn [fst snd] in *.
    rewrite <- H1. split; [reflexivity|]. now f_equal.
  - pose proof (once_gen_next_pending (_create_relation_iterator w)
                                      (_relation_iter w)) as [H1 H2].
    destruct (once_gen_next _ _) as [r g]. cbn [fst snd] in *.
    rewrite <- H1. split; [reflexivity|]. now f_equal.
  - pose proof (for_gen_next_pending (_create_next_record w) (parts w) (parts w)
                                     (_record_iter w)) as [H1 H2].
    destruct (for_gen_next _ _ _) as [r g]. cbn [fst snd] in *.
    rewrite <- H1. split; [reflexivity|]. now f_equal.
  - pose proof (for_gen_next_pending (_create_atlas_partition_entity w) (parts w)
                                     (parts w) (_atlas_entity_iterator w)) as [H1 H2].
    destruct (for_gen_next _ _ _) as [r g]. cbn [fst snd] in *.
    rewrite <- H1. split; [reflexivity|]. now f_equal.
  - now split.
Qed.

(** A call of another accessor leaves the pending items of [p] as they
    are. *)
Lemma pull_other_pending p q w :
  q <> p -> pending p (pull q w).2 = pending p w.
Proof.
  intros Hne.
  destruct p, q; try congruence; unfold_accessors; cbn [pending];
    try (destruct (for_gen_next _ _ _) as [r g]);
    try (destruct (once_gen_next _ _) as [r g]);
    reflexivity.
Qed.

(** Over any calls, the calls of [p] return the pending items of [p] in
    order, then [None]. *)
Lemma results_of_pulls p ps : forall w,
  let n := length (filter (fun q => q = p) ps) in
  results_of p ps (pulls ps w).1 =
  (take n (Some <$> pending p w) ++ replicate (n - length (pending p w)) None)%list.
Proof.
  induction ps as [|q ps IH]; intros w; [reflexivity|].
  cbn [pulls]. unfold bind, ret.
  pose proof (pull_pending q w) as [Hhd Htl].
  pose proof (pull_other_pending p q w) as Hother.
  destruct (pull q w) as [r w1]. cbn [fst snd] in *.
  specialize (IH w1). cbn zeta in IH.
  destruct (pulls ps w1) as [rs w2]. cbn [fst snd results_of] in *.
  rewrite filter_cons. destruct (decide (q = p)) as [->|Hne].
  - rewrite IH, Htl, Hhd. cbn [length].
    destruct (pending p w) as [|it rest]; cbn; [|reflexivity].
    now rewrite take_nil, Nat.sub_0_r.
  - rewrite IH, Hother by exact Hne. reflexivity.
Qed.

Lemma length_pulls ps : forall w, length (pulls ps w).1 = length ps.
Proof.
  induction ps as [|q ps IH]; intros w; [reflexivity|].
  cbn [pulls]. unfold bind, ret. destruct (pull q w) as [r w1].
  specialize (IH w1). destruct (pulls ps w1) as [rs w2]. cbn in *. now rewrite IH.
Qed.

Lemma results_of_all p ps : forall rs,
  Forall (fun q => q = p) ps -> length rs = length ps -> results_of p ps rs = rs.
Proof.
  induction ps as [|q ps IH]; intros [|r rs] Hall Hlen; try discriminate; [reflexivity|].
  apply Forall_cons in Hall as [-> Hall]. cbn [results_of].
  rewrite decide_True by reflexivity. f_equal. apply IH; [exact Hall | now injection Hlen].
Qed.

(** X2: in any state of the instance and any order of calls, what the calls
    of one accessor return is what they return when the calls of the other
    accessors are left out. *)
Theorem accessors_are_independent (w : Watermark) (ps : list producer) (p : producer) :
  results_of p ps (pulls ps w).1 = (pulls (filter (fun q => q = p) ps) w).1.
Proof.
  rewrite results_of_pulls.
  assert (Forall (fun q => q = p) (filter (fun q => q = p) ps)) as Hall.
  { apply Forall_forall. intros q Hq. now apply list_elem_of_filter in Hq as [? _]. }
  rewrite <- (results_of_all p (filter (fun q => q = p) ps)
                             (pulls (filter (fun q => q = p) ps) w).1 Hall)
    by apply length_pulls.
  rewrite results_of_pulls. cbn zeta.
  now rewrite list_filter_filter_l by tauto.
Qed.

(** The pending items of a constructed instance: one per accessor that sits
    on a generator. *)
Lemma pending_fresh_one w k v p :
  parts w = [(k, v)] -> fresh w ->
  pending p w =
  match p with
  | NodeProducer => [NodeItem (_create_node_iterator w (k, v))]
  | RelationProducer => [RelationItem (_create_relation_iterator w)]
  | RecordProducer => [RecordItem (_create_next_record w (k, v))]
  | AtlasEntityProducer => [AtlasEntityItem (_create_atlas_partition_entity w (k, v))]
  | AtlasRelationProducer => []
  end.
Proof.
  intros Hp (Hn & Hr & Hc & He). destruct p; cbn [pending];
    rewrite ?Hn, ?Hr, ?Hc, ?He, ?Hp; reflexivity.
Qed.

(** X3: on a constructed instance, in any order of calls, each of the four
    accessors that sit on a generator returns its one item at its first
    call and [None] at every other call; the accessor of catalog
    relationships returns [None] at every call. *)
Theorem each_item_is_returned_once ct db sc tb pn pt cl w (ps : list producer) p :
  Watermark_init ct db sc tb pn pt cl = inr w ->
  exists k v,
    parts w = [(k, v)] /\
    let n := length (filter (fun q => q = p) ps) in
    let first :=
      match p with
      | NodeProducer => Some (NodeItem (_create_node_iterator w (k, v)))
      | RelationProducer => Some (RelationItem (_create_relation_iterator w))
      | RecordProducer => Some (RecordItem (_create_next_record w (k, v)))
      | AtlasEntityProducer =>
          Some (AtlasEntityItem (_create_atlas_partition_entity w (k, v)))
      | AtlasRelationProducer => None
      end in
    results_of p ps (pulls ps w).1 = take n (first :: replicate n None).
Proof.
  intros Hinit. pose proof (Watermark_init_fresh _ _ _ _ _ _ _ _ Hinit) as Hfresh.
  destruct (Watermark_init_inr _ _ _ _ _ _ _ _ Hinit) as (k & v & _ & _ & Hw).
  assert (parts w = [(k, v)]) as Hp by now subst w.
  exists k, v. split; [exact Hp|]. intros n first.
  rewrite results_of_pulls. fold n.
  rewrite (pending_fresh_one w k v p Hp Hfresh).
  destruct n as [|n]; [now destruct p|].
  assert (take n (None :: replicate n None) = replicate n (@None item)) as Htake.
  { change (None :: replicate n None) with (replicate (S n) (@None item)).
    rewrite take_replicate. now rewrite Nat.min_l by lia. }
  destruct p; cbn; rewrite ?take_nil, ?Nat.sub_0_r, Htake; reflexivity.
Qed.

Lemma each_item_is_returned_once_witness :
  exists k v,
    parts (mkWatermark "2024-01-02T00:00:00" "hive" "sales" "orders"
                       [("ds", "2024-01-01")] "high_watermark" "gold"
                       ForCreated OnceCreated ForCreated ForCreated) = [(k, v)] /\
    let w := mkWatermark "2024-01-02T00:00:00" "hive" "sales" "orders"
                         [("ds", "2024-01-01")] "high_watermark" "gold"
                         ForCreated OnceCreated ForCreated ForCreated in
    let ps := [RelationProducer; NodeProducer; RelationProducer; RecordProducer;
               RelationProducer] in
    let n := length (filter (fun q => q = RelationProducer) ps) in
    let first := Some (RelationItem (_create_relation_iterator w)) in
    results_of RelationProducer ps (pulls ps w).1 = take n (first :: replicate n None).
Proof.
  apply (each_item_is_returned_once
           "2024-01-02T00:00:00" "hive" "sales" "orders" "ds=2024-01-01"
           default_part_type default_cluster _
           [RelationProducer; NodeProducer; RelationProducer; RecordProducer;
            RelationProducer] RelationProducer).
  reflexivity.
Defined.

(** ** The instance does not change *)

(** X4: the calls of the accessors never change a field of a constructed
    instance: after any calls it holds the arguments of the constructor and
    the one pair split from [part_name]. *)
Theorem accessors_keep_fields ct db sc tb pn pt cl w (ps : list producer) :
  Watermark_init ct db sc tb pn pt cl = inr w ->
  let w' := (pulls ps w).2 in
  create_time w' = ct /\ database w' = db /\ schema w' = sc /\ table w' = tb /\
  part_type w' = pt /\ cluster w' = cl /\
  exists k v,
    parts w' = [(k, v)] /\ pn = k +:+ "=" +:+ v /\
    ~ In "="%char (list_ascii_of_string k).
Proof.
  intros Hinit w'.
  destruct (pulls_same_fields ps w) as (H1 & H2 & H3 & H4 & H5 & H6 & H7).
  fold w' in H1, H2, H3, H4, H5, H6, H7.
  destruct (Watermark_init_inr _ _ _ _ _ _ _ _ Hinit) as (k & v & Hpn & Hk & Hw).
  rewrite H1, H2, H3, H4, H5, H6, H7. subst w. cbn.
  repeat split. exists k, v. repeat split; assumption.
Qed.

Lemma accessors_keep_fields_witness :
  let w' := (pulls [NodeProducer; NodeProducer; AtlasEntityProducer; RelationProducer]
                   (mkWatermark "2024-01-02T00:00:00" "hive" "sales" "orders"
                                [("ds", "2024-01-01")] "high_watermark" "gold"
                                ForCreated OnceCreated ForCreated ForCreated)).2 in
  create_time w' = "2024-01-02T00:00:00" /\ database w' = "hive" /\
  schema w' = "sales" /\ table w' = "orders" /\
  part_type w' = default_part_type /\ cluster w' = default_cluster /\
  exists k v,
    parts w' = [(k, v)] /\ "ds=2024-01-01" = k +:+ "=" +:+ v /\
    ~ In "="%char (list_ascii_of_string k).
Proof.
  apply (accessors_keep_fields
           "2024-01-02T00:00:00" "hive" "sales" "orders" "ds=2024-01-01"
           default_part_type default_cluster _
           [NodeProducer; NodeProducer; AtlasEntityProducer; RelationProducer]).
  reflexivity.
Defined.

(** ** One content in the three representations *)

Lemma head_Some_elem_of {A : Type} (l : list A) (x : A) :
  head l = Some x -> x ∈ l.
Proof. destruct l as [|y l]; [discriminate | intros [= ->]; apply list_elem_of_here]. Qed.

Lemma elem_of_tail {A : Type} (l : list A) (x : A) : x ∈ tail l -> x ∈ l.
Proof. destruct l as [|y l]; [easy | apply list_elem_of_further]. Qed.

(** Whatever a run of calls returns was pending at its start. *)
Lemma pulls_return_pending ps : forall w it,
  Some it ∈ (pulls ps w).1 -> exists p, it ∈ pending p w.
Proof.
  induction ps as [|q ps IH]; intros w it; cbn [pulls].
  - unfold ret. cbn [fst]. intros H. now apply elem_of_nil in H.
  - unfold bind, ret.
    pose proof (pull_pending q w) as [Hhd Htl].
    pose proof (fun p => pull_other_pending p q w) as Hother.
    destruct (pull q w) as [r w1]. cbn [fst snd] in *.
    specialize (IH w1 it). destruct (pulls ps w1) as [rs w2]. cbn [fst] in *.
    intros [E|Hin]%elem_of_cons.
    + exists q. apply head_Some_elem_of. now rewrite <- Hhd.
    + destruct (IH Hin) as [p Hp]. exists p.
      destruct (decide (q = p)) as [->|Hne].
      * rewrite Htl in Hp. now apply elem_of_tail.
      * now rewrite Hother in Hp.
Qed.

(** X5: the node, the record and the entity that a run of calls on a
    constructed instance returns carry one content: the partition key, the
    partition value and the creation time of the record are the
    [partition_key], [partition_value] and [create_time] attributes of the
    node and the [key], [name] (and [displayName]) and [create_time]
    attributes of the entity, and [part_name] is the record's partition key,
    an ['='] and its partition value. *)
Theorem emitted_contents_coincide ct db sc tb pn pt cl w (ps : list producer) n r e :
  Watermark_init ct db sc tb pn pt cl = inr w ->
  Some (NodeItem n) ∈ (pulls ps w).1 ->
  Some (RecordItem r) ∈ (pulls ps w).1 ->
  Some (AtlasEntityItem e) ∈ (pulls ps w).1 ->
  pn = RDSTableWatermark.partition_key r +:+ "=" +:+ RDSTableWatermark.partition_value r /\
  RDSTableWatermark.create_time r = ct /\
  GraphNode.attributes n !! "partition_key" = Some (RDSTableWatermark.partition_key r) /\
  GraphNode.attributes n !! "partition_value" = Some (RDSTableWatermark.partition_value r) /\
  GraphNode.attributes n !! "create_time" = Some (RDSTableWatermark.create_time r) /\
  AtlasEntity.attributes e !! "key" = Some (RDSTableWatermark.partition_key r) /\
  AtlasEntity.attributes e !! "name" = Some (RDSTableWatermark.partition_value r) /\
  AtlasEntity.attributes e !! "displayName" = Some (RDSTableWatermark.partition_value r) /\
  AtlasEntity.attributes e !! "create_time" = Some (RDSTableWatermark.create_time r).
Proof.
  intros Hinit Hn Hr He.
  pose proof (Watermark_init_fresh _ _ _ _ _ _ _ _ Hinit) as Hfresh.
  destruct (Watermark_init_inr _ _ _ _ _ _ _ _ Hinit) as (k & v & Hpn & _ & Hw).
  assert (parts w = [(k, v)]) as Hp by now subst w.
  apply pulls_return_pending in Hn as [p1 Hn].
  apply pulls_return_pending in Hr as [p2 Hr].
  apply pulls_return_pending in He as [p3 He].
  rewrite (pending_fresh_one w k v _ Hp Hfresh) in Hn.
  rewrite (pending_fresh_one w k v _ Hp Hfresh) in Hr.
  rewrite (pending_fresh_one w k v _ Hp Hfresh) in He.
  destruct p1; try (apply list_elem_of_singleton in Hn; discriminate Hn);
    try (now apply elem_of_nil in Hn).
  destruct p2; try (apply list_elem_of_singleton in Hr; discriminate Hr);
    try (now apply elem_of_nil in Hr).
  destruct p3; try (apply list_elem_of_singleton in He; discriminate He);
    try (now apply elem_of_nil in He).
  apply list_elem_of_singleton in Hn, Hr, He.
  injection Hn as ->. injection Hr as ->. injection He as ->.
  unfold _create_atlas_partition_entity, _create_node_iterator, _create_next_record.
  cbn [GraphNode.attributes RDSTableWatermark.partition_key
       RDSTableWatermark.partition_value RDSTableWatermark.create_time
       AtlasEntity.attributes fst snd].
  rewrite entity_attributes_eq, node_attributes_eq. subst w.
  repeat split. exact Hpn.
Qed.

Lemma emitted_contents_coincide_witness :
  let w := mkWatermark "2024-01-02T00:00:00" "hive" "sales" "orders"
                       [("ds", "2024-01-01")] "high_watermark" "gold"
                       ForCreated OnceCreated ForCreated ForCreated in
  let n := _create_node_iterator w ("ds", "2024-01-01") in
  let r := RDSTableWatermark.mk "hive://gold.sales/orders/high_watermark/"
                                "ds" "2024-01-01" "2024-01-02T00:00:00"
                                "hive://gold.sales/orders" in
  let e := _create_atlas_partition_entity w ("ds", "2024-01-01") in
  "ds=2024-01-01" =
    RDSTableWatermark.partition_key r +:+ "=" +:+ RDSTableWatermark.partition_value r /\
  RDSTableWatermark.create_time r = "2024-01-02T00:00:00" /\
  GraphNode.attributes n !! "partition_key" = Some (RDSTableWatermark.partition_key r) /\
  GraphNode.attributes n !! "partition_value" = Some (RDSTableWatermark.partition_value r) /\
  GraphNode.attributes n !! "create_time" = Some (RDSTableWatermark.create_time r) /\
  AtlasEntity.attributes e !! "key" = Some (RDSTableWatermark.partition_key r) /\
  AtlasEntity.attributes e !! "name" = Some (RDSTableWatermark.partition_value r) /\
  AtlasEntity.attributes e !! "displayName" = Some (RDSTableWatermark.partition_value r) /\
  AtlasEntity.attributes e !! "create_time" = Some (RDSTableWatermark.create_time r).
Proof.
  intros w n r e.
  apply (emitted_contents_coincide
           "2024-01-02T00:00:00" "hive" "sales" "orders" "ds=2024-01-01"
           default_part_type default_cluster w
           [RecordProducer; AtlasEntityProducer; NodeProducer] n r e).
  - reflexivity.
  - apply list_elem_of_further, list_elem_of_further, list_elem_of_here.
  - apply list_elem_of_here.
  - apply list_elem_of_further, list_elem_of_here.
Defined.

(** ** How the two keys relate and what they determine *)

Lemma append_assoc (a b c : string) : (a +:+ b) +:+ c = a +:+ b +:+ c.
Proof. induction a as [|x a IH]; [reflexivity|]. rewrite !append_cons. now rewrite IH. Qed.

Lemma append_cancel_l (s a b : string) : s +:+ a = s +:+ b -> a = b.
Proof.
  induction s as [|x s IH]; [easy|]. rewrite !append_cons. intros [= E]. now apply IH.
Qed.

Lemma append_cancel_r (s : string) : forall a b : string, a +:+ s = b +:+ s -> a = b.
Proof.
  induction a as [|x a IH]; intros [|y b] E.
  - reflexivity.
  - apply (f_equal String.length) in E. rewrite append_nil_l, length_append in E.
    cbn [String.length] in E. lia.
  - apply (f_equal String.length) in E. rewrite append_nil_l, length_append in E.
    cbn [String.length] in E. lia.
  - rewrite !append_cons in E. injection E as -> E. f_equal. now apply IH.
Qed.

(** Two texts that agree, each cut at its first [c], agree on both sides of
    the cut. *)
Lemma split_first_char_unique (c : ascii) (k1 : string) : forall k2 v1 v2 : string,
  ~ In c (list_ascii_of_string k1) ->
  ~ In c (list_ascii_of_string k2) ->
  k1 +:+ String c v1 = k2 +:+ String c v2 ->
  k1 = k2 /\ v1 = v2.
Proof.
  induction k1 as [|c1 k1 IH]; intros [|c2 k2] v1 v2 H1 H2 E;
    cbn [list_ascii_of_string In] in *; rewrite ?append_nil_l, ?append_cons in E.
  - injection E as E. now subst.
  - injection E as Ec E. subst c2. tauto.
  - injection E as Ec E. subst c1. tauto.
  - injection E as Ec E. subst c2.
    destruct (IH k2 v1 v2) as [-> ->]; [tauto | tauto | exact E | split; reflexivity].
Qed.

(** X6: the watermark key is the table key followed by ['/'], the partition
    type and ['/']. *)
Theorem watermark_key_extends_table_key (w : Watermark) :
  get_watermark_model_key w = get_metadata_model_key w +:+ "/" +:+ part_type w +:+ "/".
Proof.
  rewrite get_watermark_model_key_eq. unfold get_metadata_model_key.
  now rewrite !append_assoc.
Qed.

(** X7: two instances of one table (equal table keys) have equal watermark
    keys exactly when their partition types are equal. *)
Theorem part_type_separates_watermark_keys (w1 w2 : Watermark) :
  get_metadata_model_key w1 = get_metadata_model_key w2 ->
  (get_watermark_model_key w1 = get_watermark_model_key w2 <-> part_type w1 = part_type w2).
Proof.
  intros Ht. rewrite !watermark_key_extends_table_key, Ht. split.
  - intros E. apply append_cancel_l in E.
    change ("/" +:+ part_type w1 +:+ "/") with (String "/" (part_type w1 +:+ "/")) in E.
    change ("/" +:+ part_type w2 +:+ "/") with (String "/" (part_type w2 +:+ "/")) in E.
    injection E as E. now apply append_cancel_r in E.
  - now intros ->.
Qed.

Lemma part_type_separates_watermark_keys_witness :
  let w1 := mkWatermark "2024-01-02" "hive" "sales" "orders" [("ds", "2024-01-01")]
                        "high_watermark" "gold"
                        ForCreated OnceCreated ForCreated ForCreated in
  let w2 := mkWatermark "2024-01-03" "hive" "sales" "orders" [("ds", "2023-01-01")]
                        "low_watermark" "gold"
                        ForCreated OnceCreated ForCreated ForCreated in
  get_watermark_model_key w1 = get_watermark_model_key w2 <-> part_type w1 = part_type w2.
Proof.
  intros w1 w2. apply (part_type_separates_watermark_keys w1 w2). reflexivity.
Defined.

(** X8: the keys do not escape their separators: a cluster [x.y] with the
    schema [z] and the cluster [x] with the schema [y.z] give the same
    watermark key and the same table key. *)
Theorem keys_collide_across_cluster_and_schema ct1 ct2 db tb pn1 pn2 pt x y z w1 w2 :
  Watermark_init ct1 db z tb pn1 pt (x +:+ "." +:+ y) = inr w1 ->
  Watermark_init ct2 db (y +:+ "." +:+ z) tb pn2 pt x = inr w2 ->
  get_watermark_model_key w1 = get_watermark_model_key w2 /\
  get_metadata_model_key w1 = get_metadata_model_key w2.
Proof.
  intros H1 H2.
  destruct (Watermark_init_inr _ _ _ _ _ _ _ _ H1) as (k1 & v1 & _ & _ & ->).
  destruct (Watermark_init_inr _ _ _ _ _ _ _ _ H2) as (k2 & v2 & _ & _ & ->).
  rewrite !get_watermark_model_key_eq. unfold get_metadata_model_key.
  cbn [database cluster schema table part_type].
  rewrite !append_assoc. split; reflexivity.
Qed.

Lemma keys_collide_across_cluster_and_schema_witness :
  exists w1 w2,
    Watermark_init "2024-01-02" "hive" "sales" "orders" "ds=2024-01-01"
                   "high_watermark" "gold.eu" = inr w1 /\
    Watermark_init "2024-01-02" "hive" "eu.sales" "orders" "ds=2024-01-01"
                   "high_watermark" "gold" = inr w2 /\
    get_watermark_model_key w1 = get_watermark_model_key w2 /\
    get_metadata_model_key w1 = get_metadata_model_key w2.
Proof.
  eexists _, _. split; [reflexivity|]. split; [reflexivity|].
  apply (keys_collide_across_cluster_and_schema
           "2024-01-02" "2024-01-02" "hive" "orders" "ds=2024-01-01" "ds=2024-01-01"
           "high_watermark" "gold" "eu" "sales"); reflexivity.
Defined.

(** The table key determines its four fields when the separators do not
    occur in the fields before them. *)
Lemma table_key_fields db1 cl1 sc1 tb1 db2 cl2 sc2 tb2 :
  ~ In ":"%char (list_ascii_of_string db1) -> ~ In ":"%char (list_ascii_of_string db2) ->
  ~ In "."%char (list_ascii_of_string cl1) -> ~ In "."%char (list_ascii_of_string cl2) ->
  ~ In "/"%char (list_ascii_of_string sc1) -> ~ In "/"%char (list_ascii_of_string sc2) ->
  db1 +:+ "://" +:+ cl1 +:+ "." +:+ sc1 +:+ "/" +:+ tb1 =
  db2 +:+ "://" +:+ cl2 +:+ "." +:+ sc2 +:+ "/" +:+ tb2 ->
  db1 = db2 /\ cl1 = cl2 /\ sc1 = sc2 /\ tb1 = tb2.
Proof.
  intros Hd1 Hd2 Hc1 Hc2 Hs1 Hs2 E.
  apply (split_first_char_unique ":" db1 db2
           ("//" +:+ cl1 +:+ "." +:+ sc1 +:+ "/" +:+ tb1)
           ("//" +:+ cl2 +:+ "." +:+ sc2 +:+ "/" +:+ tb2) Hd1 Hd2) in E as [-> E].
  apply (append_cancel_l "//") in E.
  apply (split_first_char_unique "." cl1 cl2
           (sc1 +:+ "/" +:+ tb1) (sc2 +:+ "/" +:+ tb2) Hc1 Hc2) in E as [-> E].
  apply (split_first_char_unique "/" sc1 sc2 tb1 tb2 Hs1 Hs2) in E as [-> ->].
  repeat split.
Qed.

(** X9: when [':'] does not occur in the databases, ['.'] in the clusters
    and ['/'] in the schemas, two instances with the same table key have the
    same database, cluster, schema and table. *)
Theorem table_key_determines_fields (w1 w2 : Watermark) :
  ~ In ":"%char (list_ascii_of_string (database w1)) ->
  ~ In ":"%char (list_ascii_of_string (database w2)) ->
  ~ In "."%char (list_ascii_of_string (cluster w1)) ->
  ~ In "."%char (list_ascii_of_string (cluster w2)) ->
  ~ In "/"%char (list_ascii_of_string (schema w1)) ->
  ~ In "/"%char (list_ascii_of_string (schema w2)) ->
  get_metadata_model_key w1 = get_metadata_model_key w2 ->
  database w1 = database w2 /\ cluster w1 = cluster w2 /\
  schema w1 = schema w2 /\ table w1 = table w2.
Proof.
  unfold get_metadata_model_key. intros. now apply table_key_fields.
Qed.

(** X10: when, moreover, ['/'] does not occur in the tables, two instances
    with the same watermark key have the same five identifying fields. *)
Theorem watermark_key_determines_fields (w1 w2 : Watermark) :
  ~ In ":"%char (list_ascii_of_string (database w1)) ->
  ~ In ":"%char (list_ascii_of_string (database w2)) ->
  ~ In "."%char (list_ascii_of_string (cluster w1)) ->
  ~ In "."%char (list_ascii_of_string (cluster w2)) ->
  ~ In "/"%char (list_ascii_of_string (schema w1)) ->
  ~ In "/"%char (list_ascii_of_string (schema w2)) ->
  ~ In "/"%char (list_ascii_of_string (table w1)) ->
  ~ In "/"%char (list_ascii_of_string (table w2)) ->
  get_watermark_model_key w1 = get_watermark_model_key w2 ->
  database w1 = database w2 /\ cluster w1 = cluster w2 /\
  schema w1 = schema w2 /\ table w1 = table w2 /\ part_type w1 = part_type w2.
Proof.
  intros Hd1 Hd2 Hc1 Hc2 Hs1 Hs2 Ht1 Ht2 E.
  rewrite !get_watermark_model_key_eq in E.
  apply (split_first_char_unique ":" (database w1) (database w2)
           ("//" +:+ cluster w1 +:+ "." +:+ schema w1 +:+ "/" +:+ table w1 +:+ "/"
                 +:+ part_type w1 +:+ "/")
           ("//" +:+ cluster w2 +:+ "." +:+ schema w2 +:+ "/" +:+ table w2 +:+ "/"
                 +:+ part_type w2 +:+ "/") Hd1 Hd2) in E as [-> E].
  apply (append_cancel_l "//") in E.
  apply (split_first_char_unique "." (cluster w1) (cluster w2)
           (schema w1 +:+ "/" +:+ table w1 +:+ "/" +:+ part_type w1 +:+ "/")
           (schema w2 +:+ "/" +:+ table w2 +:+ "/" +:+ part_type w2 +:+ "/")
           Hc1 Hc2) in E as [-> E].
  apply (split_first_char_unique "/" (schema w1) (schema w2)
           (table w1 +:+ "/" +:+ part_type w1 +:+ "/")
           (table w2 +:+ "/" +:+ part_type w2 +:+ "/") Hs1 Hs2) in E as [-> E].
  apply (split_first_char_unique "/" (table w1) (table w2)
           (part_type w1 +:+ "/") (part_type w2 +:+ "/") Ht1 Ht2) in E as [-> E].
  apply append_cancel_r in E. now rewrite E.
Qed.

(** Solve [~ In c (list_ascii_of_string s)] for a literal [s]. *)
Ltac no_such_char :=
  cbn [list_ascii_of_string In];
  let H := fresh in
  intros H; repeat (destruct H as [H|H]; [discriminate H|]); exact H.

Lemma table_key_determines_fields_witness :
  let w1 := mkWatermark "2024-01-02" "hive" "sales" "orders" [("ds", "2024-01-01")]
                        "high_watermark" "gold"
                        ForCreated OnceCreated ForCreated ForCreated in
  let w2 := mkWatermark "2024-02-02" "hive" "sales" "orders" [("hour", "12")]
                        "low_watermark" "gold"
                        ForClosed OnceCreated ForCreated ForCreated in
  database w1 = database w2 /\ cluster w1 = cluster w2 /\
  schema w1 = schema w2 /\ table w1 = table w2.
Proof.
  intros w1 w2.
  apply (table_key_determines_fields w1 w2); try no_such_char.
  reflexivity.
Defined.

Lemma watermark_key_determines_fields_witness :
  let w1 := mkWatermark "2024-01-02" "hive" "sales" "orders" [("ds", "2024-01-01")]
                        "high_watermark" "gold"
                        ForCreated OnceCreated ForCreated ForCreated in
  let w2 := mkWatermark "2024-02-02" "hive" "sales" "orders" [("hour", "12")]
                        "high_watermark" "gold"
                        ForClosed OnceCreated ForCreated ForCreated in
  database w1 = database w2 /\ cluster w1 = cluster w2 /\
  schema w1 = schema w2 /\ table w1 = table w2 /\ part_type w1 = part_type w2.
Proof.
  intros w1 w2.
  apply (watermark_key_determines_fields w1 w2); try no_such_char.
  reflexivity.
Defined.

(** ** One identity in the three representations, for items that are returned *)

(** In a run that calls [p], the first pending item of [p] is returned. *)
Lemma pulls_return_first p ps : forall w it rest,
  p ∈ ps -> pending p w = it :: rest -> Some it ∈ (pulls ps w).1.
Proof.
  induction ps as [|q ps IH]; intros w it rest Hin Hpend.
  - now apply elem_of_nil in Hin.
  - cbn [pulls]. unfold bind, ret.
    pose proof (pull_pending q w) as [Hhd _].
    pose proof (pull_other_pending p q w) as Hother.
    destruct (pull q w) as [r w1]. cbn [fst snd] in *.
    specialize (IH w1 it rest). destruct (pulls ps w1) as [rs w2]. cbn [fst] in *.
    destruct (decide (q = p)) as [->|Hne].
    + rewrite Hhd, Hpend. apply list_elem_of_here.
    + apply list_elem_of_further. apply IH.
      * apply elem_of_cons in Hin as [->|Hin]; [congruence | exact Hin].
      * now rewrite Hother.
Qed.

(** C4: a run of calls on a constructed instance that calls each of the
    four accessors that sit on a generator returns a graph node, a graph
    relationship, a tabular record and a catalog entity whose identities
    coincide: the key of the node, the [rk] of the record and the
    [qualifiedName] attribute of the entity are the watermark key; the end
    key of the relationship, the [table_rk] of the record and the qualified
    name of the table relationship declared by the entity are the table key.
    Moreover whatever the run returns carries these two identities. *)
Theorem emitted_identities_coincide ct db sc tb pn pt cl w (ps : list producer) :
  Watermark_init ct db sc tb pn pt cl = inr w ->
  NodeProducer ∈ ps -> RelationProducer ∈ ps ->
  RecordProducer ∈ ps -> AtlasEntityProducer ∈ ps ->
  (exists n rel r e,
      Some (NodeItem n) ∈ (pulls ps w).1 /\
      Some (RelationItem rel) ∈ (pulls ps w).1 /\
      Some (RecordItem r) ∈ (pulls ps w).1 /\
      Some (AtlasEntityItem e) ∈ (pulls ps w).1 /\
      GraphNode.key n = get_watermark_model_key w /\
      RDSTableWatermark.rk r = get_watermark_model_key w /\
      AtlasEntity.attributes e !! "qualifiedName" = Some (get_watermark_model_key w) /\
      GraphRelationship.start_key rel = get_watermark_model_key w /\
      GraphRelationship.end_key rel = get_metadata_model_key w /\
      RDSTableWatermark.table_rk r = get_metadata_model_key w /\
      AtlasEntity.relationships e =
        [("table", AtlasTableTypes.table, get_metadata_model_key w)]) /\
  forall it,
    Some it ∈ (pulls ps w).1 ->
    match it with
    | NodeItem n => GraphNode.key n = get_watermark_model_key w
    | RelationItem r =>
        GraphRelationship.start_key r = get_watermark_model_key w /\
        GraphRelationship.end_key r = get_metadata_model_key w
    | RecordItem r =>
        RDSTableWatermark.rk r = get_watermark_model_key w /\
        RDSTableWatermark.table_rk r = get_metadata_model_key w
    | AtlasEntityItem e =>
        AtlasEntity.attributes e !! "qualifiedName" = Some (get_watermark_model_key w) /\
        AtlasEntity.relationships e =
          [("table", AtlasTableTypes.table, get_metadata_model_key w)]
    | AtlasRelationItem _ => True
    end.
Proof.
  intros Hinit Hn Hrel Hr He.
  pose proof (Watermark_init_fresh _ _ _ _ _ _ _ _ Hinit) as Hfresh.
  destruct (Watermark_init_inr _ _ _ _ _ _ _ _ Hinit) as (k & v & _ & _ & Hw).
  assert (parts w = [(k, v)]) as Hp by now subst w.
  split.
  - exists (_create_node_iterator w (k, v)), (_create_relation_iterator w),
           (_create_next_record w (k, v)), (_create_atlas_partition_entity w (k, v)).
    split; [|split; [|split; [|split]]].
    + apply (pulls_return_first NodeProducer ps w _ [] Hn).
      apply (pending_fresh_one w k v NodeProducer Hp Hfresh).
    + apply (pulls_return_first RelationProducer ps w _ [] Hrel).
      apply (pending_fresh_one w k v RelationProducer Hp Hfresh).
    + apply (pulls_return_first RecordProducer ps w _ [] Hr).
      apply (pending_fresh_one w k v RecordProducer Hp Hfresh).
    + apply (pulls_return_first AtlasEntityProducer ps w _ [] He).
      apply (pending_fresh_one w k v AtlasEntityProducer Hp Hfresh).
    + repeat split.
  - intros it Hin.
    change (carries_keys (get_watermark_model_key w) (get_metadata_model_key w) it).
    now apply (pulls_carry_keys ps).
Qed.

Lemma emitted_identities_coincide_witness :
  let w := mkWatermark "2024-01-02T00:00:00" "hive" "sales" "orders"
                       [("ds", "2024-01-01")] "high_watermark" "gold"
                       ForCreated OnceCreated ForCreated ForCreated in
  let ps := [RecordProducer; NodeProducer; AtlasEntityProducer; NodeProducer;
             RelationProducer] in
  exists n rel r e,
    Some (NodeItem n) ∈ (pulls ps w).1 /\
    Some (RelationItem rel) ∈ (pulls ps w).1 /\
    Some (RecordItem r) ∈ (pulls ps w).1 /\
    Some (AtlasEntityItem e) ∈ (pulls ps w).1 /\
    GraphNode.key n = get_watermark_model_key w /\
    RDSTableWatermark.rk r = get_watermark_model_key w /\
    AtlasEntity.attributes e !! "qualifiedName" = Some (get_watermark_model_key w) /\
    GraphRelationship.start_key rel = get_watermark_model_key w /\
    GraphRelationship.end_key rel = get_metadata_model_key w /\
    RDSTableWatermark.table_rk r = get_metadata_model_key w /\
    AtlasEntity.relationships e =
      [("table", AtlasTableTypes.table, get_metadata_model_key w)].
Proof.
  intros w ps.
  refine (proj1 (emitted_identities_coincide
                   "2024-01-02T00:00:00" "hive" "sales" "orders" "ds=2024-01-01"
                   default_part_type default_cluster w ps eq_refl _ _ _ _)).
  - apply list_elem_of_further, list_elem_of_here.
  - do 4 apply list_elem_of_further. apply list_elem_of_here.
  - apply list_elem_of_here.
  - do 2 apply list_elem_of_further. apply list_elem_of_here.
Defined.
